(** * The quick-trade runner and its configuration

    A shallow embedding of [config.ts] and [quickTrade.ts]: the
    configuration constants read from [process.env], and the [main]
    procedure that fetches the open markets, places a buy order, waits
    [DELAY_MS] and places a sell order.

    The collaborators of [./bot] ([getBitcoinUpDownMarkets], [placeOrder],
    [placeSellOrder]) are only imported by the script; they are taken as a
    parameter (the [World]) and every statement quantifies over them. *)

From Stdlib Require Import ZArith NArith Ascii String List Bool Lia.
From Stdlib Require Import DecimalString DecimalZ DecimalPos.
From stdpp Require Import base option gmap strings list.

Local Open Scope Z_scope.

(** ** The JavaScript built-ins the two files use *)

Module JS.

(** A JavaScript number, as far as [parseInt] and the two clamps can
    produce one: [NaN] or an integer.  [Num z] is exact for [z] up to
    [2^53] in magnitude, the range in which every integer is a
    JavaScript number; beyond it JavaScript holds the nearest double, or
    Infinity, which [Num z] does not follow, so what is stated of a value
    read from a numeral or printed as one is stated in that range.  The
    comparisons with [0], [1] and [99], the only ones the script makes,
    come out the same for [z] and for its double.  [-0] is [Num 0]. *)
Inductive number : Type :=
  | NaN
  | Num (z : Z).

(** [Math.max(a, b)] and [Math.min(a, b)]: [NaN] as soon as one argument
    is [NaN]. *)
Definition Math_max (a b : number) : number :=
  match a, b with
  | Num x, Num y => Num (Z.max x y)
  | _, _ => NaN
  end.

Definition Math_min (a b : number) : number :=
  match a, b with
  | Num x, Num y => Num (Z.min x y)
  | _, _ => NaN
  end.

(** [a < b]; a comparison with [NaN] is false. *)
Definition lt (a b : number) : bool :=
  match a, b with
  | Num x, Num y => x <? y
  | _, _ => false
  end.

(** [lo <= n && n <= hi] *)
Definition between (lo hi : Z) (n : number) : bool :=
  match n with
  | Num z => (lo <=? z) && (z <=? hi)
  | NaN => false
  end.

(** Strings are sequences of bytes, the UTF-8 form in which the
    environment hands them to the process. *)
Definition code (c : ascii) : N := N_of_ascii c.

(** The white space and line terminators of ECMAScript: TAB, LF, VT, FF,
    CR, SP in one byte, U+00A0 in two, and U+1680, U+2000..U+200A,
    U+2028, U+2029, U+202F, U+205F, U+3000, U+FEFF in three. *)
Definition ws1 (a : N) : bool :=
  ((9 <=? a) && (a <=? 13) || (a =? 32))%N.

Definition ws2 (a b : N) : bool :=
  ((a =? 194) && (b =? 160))%N.

Definition ws3 (a b c : N) : bool :=
  ((a =? 225) && (b =? 154) && (c =? 128)
   || (a =? 226) && (b =? 128)
        && ((128 <=? c) && (c <=? 138) || (c =? 168) || (c =? 169) || (c =? 175))
   || (a =? 226) && (b =? 129) && (c =? 159)
   || (a =? 227) && (b =? 128) && (c =? 128)
   || (a =? 239) && (b =? 187) && (c =? 191))%N.

(** [TrimString(s, start)] *)
Fixpoint TrimStart (s : string) : string :=
  match s with
  | EmptyString => EmptyString
  | String a r1 =>
      if ws1 (code a) then TrimStart r1
      else match r1 with
           | EmptyString => s
           | String b r2 =>
               if ws2 (code a) (code b) then TrimStart r2
               else match r2 with
                    | EmptyString => s
                    | String c r3 =>
                        if ws3 (code a) (code b) (code c) then TrimStart r3
                        else s
                    end
           end
  end.

(** The value of a digit in the widest radix: [0-9], [a-z], [A-Z]. *)
Definition digit_value (c : ascii) : option Z :=
  let n := code c in
  if ((48 <=? n) && (n <=? 57))%N then Some (Z.of_N n - 48)
  else if ((97 <=? n) && (n <=? 122))%N then Some (Z.of_N n - 87)
  else if ((65 <=? n) && (n <=? 90))%N then Some (Z.of_N n - 55)
  else None.

(** The longest prefix of [s] made of radix-[R] digits, as digit values. *)
Fixpoint radix_digits (R : Z) (s : string) : list Z :=
  match s with
  | EmptyString => []
  | String c r =>
      match digit_value c with
      | Some d => if d <? R then d :: radix_digits R r else []
      | None => []
      end
  end.

Definition math_int (R : Z) (ds : list Z) : Z :=
  fold_left (fun acc d => acc * R + d) ds 0.

Definition ToInt32 (z : Z) : Z :=
  let m := z mod 2 ^ 32 in
  if 2 ^ 31 <=? m then m - 2 ^ 32 else m.

Definition hex_prefixed (s : string) : bool :=
  match s with
  | String "0" (String "x" _) | String "0" (String "X" _) => true
  | _ => false
  end.

Definition drop2 (s : string) : string :=
  match s with
  | String _ (String _ r) => r
  | _ => s
  end.

(** [parseInt(string, radix)], step by step as the language defines it,
    with the value of the digits kept as it is: the result is the
    JavaScript one when that value is at most [2^53], and [NaN] exactly
    when JavaScript gives [NaN]. *)
Definition parseInt (string : string) (radix : Z) : number :=
  let str := TrimStart string in
  let sign := match str with String "-" _ => -1 | _ => 1 end in
  let str := match str with
             | String "-" r | String "+" r => r
             | _ => str
             end in
  let R := ToInt32 radix in
  if negb (R =? 0) && ((R <? 2) || (36 <? R)) then NaN
  else
    let stripPrefix := (R =? 0) || (R =? 16) in
    let R := if R =? 0 then 10 else R in
    let '(str, R) := if stripPrefix && hex_prefixed str then (drop2 str, 16)
                     else (str, R) in
    match radix_digits R str with
    | [] => NaN
    | ds => Num (sign * math_int R ds)
    end.

(** [Number::toString], which a template literal applies to a number:
    ["NaN"], or the decimal numeral, which is what JavaScript prints for
    an integer up to [2^53] in magnitude. *)
Definition Number_toString (n : number) : string :=
  match n with
  | NaN => "NaN"
  | Num z => NilZero.string_of_int (Z.to_int z)
  end.

End JS.

Import JS.

(** ** config.ts: the constants read from the environment *)

Module Config.

(** [a ?? b]: [b] when [a] is [undefined], which is what reading an unset
    variable from [process.env] gives. *)
Notation "a ?? b" := (default b a) (at level 45, left associativity).

(** [a === s] for [a] a string or [undefined]. *)
Definition strict_eq (a : option string) (s : string) : bool :=
  match a with
  | Some v => String.eqb v s
  | None => false
  end.

(** The bindings the module exports. *)
Record t : Type := {
  BOT_SIDE : string;
  BOT_PRICE_CENTS : number;
  BOT_CONTRACTS : number;
  BTC_SERIES_TICKER : string;
  BOT_MAX_MARKETS : number;
  BOT_DRY_RUN : bool
}.

(** Evaluation of the module in the environment [env]: [process.env] as
    it is when the module is evaluated, that is once the import of
    [dotenv/config], the first of quickTrade.ts, has added the variables
    of the [.env] file to it. *)
Definition load (env : gmap string string) : t := {|
  BOT_SIDE := (env !! "KALSHI_BOT_SIDE") ?? "yes";
  BOT_PRICE_CENTS := parseInt ((env !! "KALSHI_BOT_PRICE_CENTS") ?? "50") 10;
  BOT_CONTRACTS := parseInt ((env !! "KALSHI_BOT_CONTRACTS") ?? "1") 10;
  BTC_SERIES_TICKER := "KXBTC15M";
  BOT_MAX_MARKETS := parseInt ((env !! "KALSHI_BOT_MAX_MARKETS") ?? "1") 10;
  BOT_DRY_RUN := strict_eq (env !! "KALSHI_BOT_DRY_RUN") "true"
|}.

(** The same bindings with another value of the dry-run flag. *)
Definition with_dry_run (b : bool) (cfg : t) : t := {|
  BOT_SIDE := BOT_SIDE cfg;
  BOT_PRICE_CENTS := BOT_PRICE_CENTS cfg;
  BOT_CONTRACTS := BOT_CONTRACTS cfg;
  BTC_SERIES_TICKER := BTC_SERIES_TICKER cfg;
  BOT_MAX_MARKETS := BOT_MAX_MARKETS cfg;
  BOT_DRY_RUN := b
|}.

End Config.

Import Config.

(** ** ./bot: what the script sees of its collaborators *)

Module Bot.

(** A market; the script reads its [ticker] only. *)
Record Market : Type := { ticker : string }.

(** What an order call resolves to: [{ orderId }] or [{ error }]. *)
Inductive OrderResult : Type :=
  | Placed (orderId : string)
  | Failed (error : string).

(** ["error" in r] *)
Definition has_error (r : OrderResult) : bool :=
  match r with
  | Failed _ => true
  | Placed _ => false
  end.

(** [r.error] and [r.orderId]; reading a property the object lacks gives
    [undefined], which the console prints as such. *)
Definition get_error (r : OrderResult) : string :=
  match r with
  | Failed e => e
  | Placed _ => "undefined"
  end.

Definition get_orderId (r : OrderResult) : string :=
  match r with
  | Placed id => id
  | Failed _ => "undefined"
  end.

(** The execution options of an order call, [{ arbLive: ... }]. *)
Record ExecOpts : Type := { arbLive : bool }.

(** How a promise settles. *)
Inductive settled (A : Type) : Type :=
  | Fulfilled (value : A)
  | Rejected (reason : string).
Arguments Fulfilled {A} value.
Arguments Rejected {A} reason.

(** A call to a collaborator, with its arguments. *)
Inductive call : Type :=
  | GetBitcoinUpDownMarkets
  | PlaceOrder (ticker side : string) (count priceCents : number) (opts : ExecOpts)
  | PlaceSellOrder (ticker side : string) (count : number) (opts : ExecOpts).

(** The collaborators and the timer of one run: what each call settles
    to, how long it takes, and how late the timer fires.  Times are in
    milliseconds. *)
Record World : Type := {
  getBitcoinUpDownMarkets : settled (list Market);
  placeOrder : string -> string -> number -> number -> ExecOpts -> settled OrderResult;
  placeSellOrder : string -> string -> number -> ExecOpts -> settled OrderResult;
  latency : call -> N;
  timer_lag : N
}.

End Bot.

Import Bot.

(** ** The process: clock, output streams, exit status *)

Module Process.

(** What a collaborator call settled to, as the trace records it. *)
Inductive reply : Type :=
  | Markets (ms : list Market)
  | Order (r : OrderResult)
  | Raised (reason : string).

(** What an observer of the process sees. *)
Inductive event : Type :=
  | Stdout (text : string)
  | Stderr (text : string)
  | Call (c : call)
  | Settle (r : reply)
  | TimerSet (ms : Z)
  | TimerFired.

(** A trace lists the events in the order they happen, each with the
    time on the clock when it happens. *)
Definition trace : Type := list (N * event).

(** How a computation ends: with a value, in [process.exit(code)], or
    with an exception (a rejected [await] included). *)
Inductive completion (A : Type) : Type :=
  | Normal (a : A)
  | Exit (code : Z)
  | Throw (reason : string).
Arguments Normal {A} a.
Arguments Exit {A} code.
Arguments Throw {A} reason.

(** A computation runs in a world from a time on the clock; it gives the
    events it causes, the time it ends and its completion.  Only awaited
    calls and the timer take time. *)
Definition M (A : Type) : Type := World -> N -> trace * N * completion A.

Definition ret {A} (a : A) : M A := fun _ t => ([], t, Normal a).

Definition bind {A B} (m : M A) (k : A -> M B) : M B := fun w t =>
  match m w t with
  | (tr1, t1, Normal a) =>
      match k a w t1 with
      | (tr2, t2, c) => (tr1 ++ tr2, t2, c)
      end
  | (tr1, t1, Exit code) => (tr1, t1, Exit code)
  | (tr1, t1, Throw reason) => (tr1, t1, Throw reason)
  end.

Notation "x <- m ;; k" := (bind m (fun x => k))
  (at level 100, m at next level, right associativity).
Notation "m ;; k" := (bind m (fun _ => k))
  (at level 100, right associativity).

Definition emit (e : event) : M unit := fun _ t => ([(t, e)], t, Normal tt).

(** [if (b) { m }] *)
Definition when (b : bool) (m : M unit) : M unit := if b then m else ret tt.

(** [m.catch(h)] *)
Definition catch {A} (m : M A) (h : string -> M A) : M A := fun w t =>
  match m w t with
  | (tr1, t1, Throw reason) =>
      match h reason w t1 with
      | (tr2, t2, c) => (tr1 ++ tr2, t2, c)
      end
  | r => r
  end.

Definition throw {A} (reason : string) : M A := fun _ t => ([], t, Throw reason).

(** [process.exit(code)] never returns. *)
Definition process_exit {A} (code : Z) : M A := fun _ t => ([], t, Exit code).

(** [console.log(...args)] and [console.error(...args)] of strings, the
    first of which holds no format specifier: the arguments separated by
    a space. *)
Fixpoint join (sep : string) (args : list string) : string :=
  match args with
  | [] => ""
  | [a] => a
  | a :: rest => a +:+ sep +:+ join sep rest
  end.

Definition console_log (args : list string) : M unit := emit (Stdout (join " " args)).
Definition console_error (args : list string) : M unit := emit (Stderr (join " " args)).

(** An awaited call: the call, the time it takes, and how it settles. *)
Definition await {A} (c : call) (wrap : A -> reply) (answer : World -> settled A) : M A :=
  fun w t =>
    let t' := (t + latency w c)%N in
    match answer w with
    | Fulfilled v => ([(t, Call c); (t', Settle (wrap v))], t', Normal v)
    | Rejected reason => ([(t, Call c); (t', Settle (Raised reason))], t', Throw reason)
    end.

(** The three collaborators, awaited. *)
Definition await_getBitcoinUpDownMarkets : M (list Market) :=
  await GetBitcoinUpDownMarkets Markets getBitcoinUpDownMarkets.

Definition await_placeOrder (ticker side : string) (count priceCents : number)
    (opts : ExecOpts) : M OrderResult :=
  await (PlaceOrder ticker side count priceCents opts) Order
        (fun w => placeOrder w ticker side count priceCents opts).

Definition await_placeSellOrder (ticker side : string) (count : number)
    (opts : ExecOpts) : M OrderResult :=
  await (PlaceSellOrder ticker side count opts) Order
        (fun w => placeSellOrder w ticker side count opts).

(** [await new Promise((r) => setTimeout(r, ms))]: the timer fires [ms]
    after it is set, or later. *)
Definition sleep (ms : Z) : M unit := fun w t =>
  let t' := (t + Z.to_N ms + timer_lag w)%N in
  ([(t, TimerSet ms); (t', TimerFired)], t', Normal tt).

(** [a[i]] read for a property: [undefined] has none. *)
Definition index {A} (a : list A) (i : nat) (prop : string) : M A :=
  match a !! i with
  | Some x => ret x
  | None => throw ("TypeError: Cannot read properties of undefined (reading '" +:+ prop +:+ "')")
  end.

(** What a finished process leaves: its trace and its exit status. *)
Record outcome : Type := { events : trace; exitCode : Z }.

(** A script that runs to its end exits with status 0, one that stops in
    [process.exit(code)] with [code], and an exception nobody caught
    ends the process with status 1. *)
Definition run (script : M unit) (w : World) : outcome :=
  match script w 0%N with
  | (tr, _, Normal _) => {| events := tr; exitCode := 0 |}
  | (tr, _, Exit code) => {| events := tr; exitCode := code |}
  | (tr, _, Throw _) => {| events := tr; exitCode := 1 |}
  end.

End Process.

Import Process.

(** ** quickTrade.ts *)

Module QuickTrade.

(** [DELAY_MS / 1000] in the log line is an exact division. *)
Definition DELAY_MS : Z := 5000.

Definition main (cfg : Config.t) : M unit :=
  console_log ["[Test Kalshi] Fetching open Bitcoin 15m up/down markets..."] ;;
  markets <- await_getBitcoinUpDownMarkets ;;
  when (length markets =? 0)%nat (
    console_error ["[Test Kalshi] No open Bitcoin up/down markets found."] ;;
    process_exit 1
  ) ;;
  market <- index markets 0 "ticker" ;;
  let ticker := ticker market in
  let side := BOT_SIDE cfg in
  let count := Math_max (Num 1) (BOT_CONTRACTS cfg) in
  let priceCents := Math_max (Num 1) (Math_min (Num 99) (BOT_PRICE_CENTS cfg)) in
  console_log ["[Test Kalshi] Market: " +:+ ticker] ;;
  console_log ["[Test Kalshi] Side: " +:+ side +:+ " (yes=up, no=down), count="
               +:+ Number_toString count +:+ ", price="
               +:+ Number_toString priceCents +:+ "c"] ;;
  console_log ["[Test Kalshi] Placing BUY..."] ;;
  buyResult <- await_placeOrder ticker side count priceCents {| arbLive := true |} ;;
  when (has_error buyResult) (
    console_error ["[Test Kalshi] Buy failed:"; get_error buyResult] ;;
    process_exit 1
  ) ;;
  console_log ["[Test Kalshi] Buy placed:"; get_orderId buyResult] ;;
  console_log ["[Test Kalshi] Waiting " +:+ Number_toString (Num (DELAY_MS / 1000)) +:+ "s..."] ;;
  sleep DELAY_MS ;;
  console_log ["[Test Kalshi] Placing SELL to exit..."] ;;
  sellResult <- await_placeSellOrder ticker side count {| arbLive := true |} ;;
  when (has_error sellResult) (
    console_error ["[Test Kalshi] Sell failed:"; get_error sellResult] ;;
    process_exit 1
  ) ;;
  console_log ["[Test Kalshi] Sell placed:"; get_orderId sellResult] ;;
  console_log ["[Test Kalshi] Done."].

(** The module body: [main().catch((err) => { console.error(err); process.exit(1); })] *)
Definition script (cfg : Config.t) : M unit :=
  catch (main cfg) (fun err => console_error [err] ;; process_exit 1).

(** One run of the script, with the configuration [cfg], in the world [w]. *)
Definition quickTrade (cfg : Config.t) (w : World) : outcome := run (script cfg) w.

End QuickTrade.

Import QuickTrade.

(** ** Reading a trace *)

Module Observe.

Definition happenings (tr : trace) : list event := map snd tr.

(** The lines written to the two streams, in order. *)
Definition stdout (tr : trace) : list string :=
  omap (fun e => match e with Stdout s => Some s | _ => None end) (happenings tr).

Definition stderr (tr : trace) : list string :=
  omap (fun e => match e with Stderr s => Some s | _ => None end) (happenings tr).

(** The collaborator calls, in order. *)
Definition calls (tr : trace) : list call :=
  omap (fun e => match e with Call c => Some c | _ => None end) (happenings tr).

Definition is_buy (c : call) : bool :=
  match c with PlaceOrder _ _ _ _ _ => true | _ => false end.

Definition is_sell (c : call) : bool :=
  match c with PlaceSellOrder _ _ _ _ => true | _ => false end.

Definition buy_calls (tr : trace) : list call := List.filter is_buy (calls tr).
Definition sell_calls (tr : trace) : list call := List.filter is_sell (calls tr).
Definition order_calls (tr : trace) : list call :=
  List.filter (fun c => is_buy c || is_sell c) (calls tr).

(** The arguments of an order call. *)
Definition call_side (c : call) : option string :=
  match c with
  | PlaceOrder _ sd _ _ _ | PlaceSellOrder _ sd _ _ => Some sd
  | GetBitcoinUpDownMarkets => None
  end.

Definition call_count (c : call) : option number :=
  match c with
  | PlaceOrder _ _ n _ _ | PlaceSellOrder _ _ n _ => Some n
  | GetBitcoinUpDownMarkets => None
  end.

Definition call_price (c : call) : option number :=
  match c with
  | PlaceOrder _ _ _ p _ => Some p
  | _ => None
  end.

Definition call_opts (c : call) : option ExecOpts :=
  match c with
  | PlaceOrder _ _ _ _ o | PlaceSellOrder _ _ _ o => Some o
  | GetBitcoinUpDownMarkets => None
  end.

(** A call with what it settled to, and when. *)
Record exchange : Type := {
  made : call;
  called_at : N;
  answer : reply;
  settled_at : N
}.

(** Calls are awaited one at a time, so the [Settle] of a call is the
    event that follows it. *)
Fixpoint exchanges (tr : trace) : list exchange :=
  match tr with
  | [] => []
  | (t, Call c) :: rest =>
      match rest with
      | (t', Settle r) :: _ =>
          {| made := c; called_at := t; answer := r; settled_at := t' |} :: exchanges rest
      | _ => exchanges rest
      end
  | _ :: rest => exchanges rest
  end.

Definition buy_exchange (tr : trace) : option exchange :=
  head (List.filter (fun x => is_buy (made x)) (exchanges tr)).

Definition sell_exchange (tr : trace) : option exchange :=
  head (List.filter (fun x => is_sell (made x)) (exchanges tr)).

(** What the buy call and the sell call settled to, if they were made. *)
Definition buy_reply (tr : trace) : option reply := answer <$> buy_exchange tr.
Definition sell_reply (tr : trace) : option reply := answer <$> sell_exchange tr.

(** The timers of a run: when set, for how long, when fired. *)
Fixpoint timers (tr : trace) : list (N * Z * N) :=
  match tr with
  | [] => []
  | (t, TimerSet ms) :: rest =>
      match rest with
      | (t', TimerFired) :: _ => (t, ms, t') :: timers rest
      | _ => timers rest
      end
  | _ :: rest => timers rest
  end.

(** No [q] event happens unless a [p] event has happened before it. *)
Fixpoint precedes (p q : event -> bool) (es : list event) : bool :=
  match es with
  | [] => true
  | e :: rest => if p e then true else if q e then false else precedes p q rest
  end.

Definition buy_succeeded (e : event) : bool :=
  match e with Settle (Order (Placed _)) => true | _ => false end.

Definition timer_fired (e : event) : bool :=
  match e with TimerFired => true | _ => false end.

Definition sell_called (e : event) : bool :=
  match e with Call c => is_sell c | _ => false end.

End Observe.

Import Observe.

(** ** Worlds and environments to run the script on *)

Module Sample.

(** One open market, and both orders accepted. *)
Definition calm : World := {|
  getBitcoinUpDownMarkets := Fulfilled [ {| ticker := "ABC" |} ];
  placeOrder := fun _ _ _ _ _ => Fulfilled (Placed "b1");
  placeSellOrder := fun _ _ _ _ => Fulfilled (Placed "s1");
  latency := fun _ => 120%N;
  timer_lag := 3%N
|}.

(** No open market. *)
Definition closed : World := {|
  getBitcoinUpDownMarkets := Fulfilled [];
  placeOrder := fun _ _ _ _ _ => Fulfilled (Placed "b1");
  placeSellOrder := fun _ _ _ _ => Fulfilled (Placed "s1");
  latency := fun _ => 120%N;
  timer_lag := 0%N
|}.

(** The buy order is refused. *)
Definition refusing : World := {|
  getBitcoinUpDownMarkets := Fulfilled [ {| ticker := "ABC" |}; {| ticker := "DEF" |} ];
  placeOrder := fun _ _ _ _ _ => Fulfilled (Failed "insufficient balance");
  placeSellOrder := fun _ _ _ _ => Fulfilled (Placed "s1");
  latency := fun _ => 80%N;
  timer_lag := 0%N
|}.

Definition env_out_of_range : gmap string string :=
  {[ "KALSHI_BOT_PRICE_CENTS" := "150"; "KALSHI_BOT_CONTRACTS" := "0" ]}.

Definition env_not_numeric : gmap string string :=
  {[ "KALSHI_BOT_PRICE_CENTS" := "abc"; "KALSHI_BOT_CONTRACTS" := "many" ]}.

Definition env_sideways : gmap string string :=
  {[ "KALSHI_BOT_SIDE" := "maybe" ]}.

End Sample.

(** ** More to read off a run, and more worlds *)

Module Inspect.

Definition call_ticker (c : call) : option string :=
  match c with
  | PlaceOrder tk _ _ _ _ | PlaceSellOrder tk _ _ _ => Some tk
  | GetBitcoinUpDownMarkets => None
  end.

(** A string of one-byte white space only (the empty string included). *)
Fixpoint blank (s : string) : bool :=
  match s with
  | EmptyString => true
  | String c r => ws1 (code c) && blank r
  end.

Definition is_decimal_digit (c : ascii) : bool :=
  ((48 <=? code c) && (code c <=? 57))%N.

(** A string that does not go on with a decimal digit. *)
Definition no_digit_ahead (s : string) : bool :=
  match s with
  | EmptyString => true
  | String c _ => negb (is_decimal_digit c)
  end.

(** The collaborator rejections a trace records. *)
Definition rejections (tr : trace) : list string :=
  omap (fun e => match e with Settle (Raised reason) => Some reason | _ => None end)
       (happenings tr).

(** The sell order is refused after the buy order was placed. *)
Definition stuck : World := {|
  getBitcoinUpDownMarkets := Fulfilled [ {| ticker := "ABC" |} ];
  placeOrder := fun _ _ _ _ _ => Fulfilled (Placed "b1");
  placeSellOrder := fun _ _ _ _ => Fulfilled (Failed "no position");
  latency := fun _ => 50%N;
  timer_lag := 1%N
|}.

(** The market fetch is rejected. *)
Definition offline : World := {|
  getBitcoinUpDownMarkets := Rejected "401 Unauthorized";
  placeOrder := fun _ _ _ _ _ => Fulfilled (Placed "b1");
  placeSellOrder := fun _ _ _ _ => Fulfilled (Placed "s1");
  latency := fun _ => 30%N;
  timer_lag := 0%N
|}.

End Inspect.

Import Inspect.

(** * Theorems *)

(** ** Built-ins on sample inputs *)

Example parseInt_50 : parseInt "50" 10 = Num 50.
Proof. reflexivity. Qed.

Example parseInt_stops_at_unit : parseInt "  -7px" 10 = Num (-7).
Proof. reflexivity. Qed.

Example parseInt_letters : parseInt "abc" 10 = NaN.
Proof. reflexivity. Qed.

Example parseInt_empty : parseInt "" 10 = NaN.
Proof. reflexivity. Qed.

Example parseInt_hex_in_radix_10 : parseInt "0x1f" 10 = Num 0.
Proof. reflexivity. Qed.

Example parseInt_hex_in_radix_16 : parseInt "0x1f" 16 = Num 31.
Proof. reflexivity. Qed.

Example clamp_150 : Math_max (Num 1) (Math_min (Num 99) (Num 150)) = Num 99.
Proof. reflexivity. Qed.

Example clamp_NaN : Math_max (Num 1) (Math_min (Num 99) NaN) = NaN.
Proof. reflexivity. Qed.

(** ** Decimal numerals are read back by [parseInt] *)

Section Numerals.

Let step (acc d : Z) : Z := acc * 10 + d.

Lemma radix_digits_cons (c : ascii) (d : Z) (s : string) :
  digit_value c = Some d -> (d <? 10) = true ->
  radix_digits 10 (String c s) = d :: radix_digits 10 s.
Proof. intros Hc Hd. cbn [radix_digits]. now rewrite Hc, Hd. Qed.

Ltac read_digit :=
  cbn [NilEmpty.string_of_uint];
  match goal with
  | |- context [radix_digits 10 (String ?c ?s)] =>
      let d := eval vm_compute in (digit_value c) in
      match d with
      | Some ?v => rewrite (radix_digits_cons c v s) by reflexivity
      end
  end;
  cbn [fold_left].

(** Reading on from a positive value follows [Pos.of_uint_acc]. *)
Lemma value_from_pos (u : Decimal.uint) :
  forall p : positive,
    fold_left step (radix_digits 10 (NilEmpty.string_of_uint u)) (Z.pos p)
    = Z.pos (Pos.of_uint_acc u p).
Proof.
  induction u; intros p; [reflexivity | ..]; read_digit;
    cbn [Pos.of_uint_acc]; rewrite <- IHu; f_equal; unfold step; lia.
Qed.

(** Reading from zero skips the leading zeros, as [Pos.of_uint] does. *)
Lemma value_from_zero (u : Decimal.uint) :
  fold_left step (radix_digits 10 (NilEmpty.string_of_uint u)) 0
  = Z.of_N (Pos.of_uint u).
Proof.
  induction u; [reflexivity | ..]; read_digit; cbn [Pos.of_uint];
    [ exact IHu | .. ];
    match goal with
    | |- fold_left step _ ?z = _ =>
        let p := eval cbv in z in
        change z with p; rewrite value_from_pos; reflexivity
    end.
Qed.

Lemma digits_nonempty (u : Decimal.uint) :
  u <> Decimal.Nil -> radix_digits 10 (NilEmpty.string_of_uint u) <> [].
Proof. destruct u; [congruence | ..]; intros _; read_digit; discriminate. Qed.

(** The numeral of a positive number is read back. *)
Lemma read_pos (p : positive) :
  match radix_digits 10 (NilEmpty.string_of_uint (Pos.to_uint p)) with
  | [] => NaN
  | ds => Num (math_int 10 ds)
  end = Num (Z.pos p).
Proof.
  pose proof (digits_nonempty _ (Unsigned.to_uint_nonnil p)) as Hne.
  pose proof (value_from_zero (Pos.to_uint p)) as Hv.
  rewrite DecimalPos.Unsigned.of_to in Hv.
  unfold math_int. fold step.
  destruct (radix_digits 10 _); [congruence | now rewrite Hv].
Qed.

(** A byte below 128 that is no white space starts no white space. *)
Lemma TrimStart_keeps (a : ascii) (r : string) :
  (code a <? 128)%N = true -> ws1 (code a) = false ->
  TrimStart (String a r) = String a r.
Proof.
  intros Hlt Hws. apply N.ltb_lt in Hlt. cbn [TrimStart]. rewrite Hws.
  assert (H2 : forall b, ws2 (code a) b = false).
  { intros b. unfold ws2. destruct (N.eqb_spec (code a) 194); [lia | reflexivity]. }
  assert (H3 : forall b c, ws3 (code a) b c = false).
  { intros b c. unfold ws3.
    destruct (N.eqb_spec (code a) 225); [lia|].
    destruct (N.eqb_spec (code a) 226); [lia|].
    destruct (N.eqb_spec (code a) 227); [lia|].
    destruct (N.eqb_spec (code a) 239); [lia|]. reflexivity. }
  destruct r as [|b [|c r]]; rewrite ?H2, ?H3; reflexivity.
Qed.

Lemma parseInt_unsigned (u : Decimal.uint) :
  u <> Decimal.Nil ->
  parseInt (NilEmpty.string_of_uint u) 10
  = match radix_digits 10 (NilEmpty.string_of_uint u) with
    | [] => NaN
    | ds => Num (math_int 10 ds)
    end.
Proof.
  intros Hu. destruct u; [congruence | ..]; cbn [NilEmpty.string_of_uint];
    unfold parseInt; rewrite TrimStart_keeps by reflexivity;
    change (ToInt32 10) with 10; cbn -[radix_digits math_int Z.mul];
    match goal with
    | |- context [radix_digits 10 ?s] => destruct (radix_digits 10 s) as [|d ds]
    end; try reflexivity; f_equal; lia.
Qed.

Lemma parseInt_negated (u : Decimal.uint) :
  parseInt (String "-" (NilEmpty.string_of_uint u)) 10
  = match radix_digits 10 (NilEmpty.string_of_uint u) with
    | [] => NaN
    | ds => Num (- math_int 10 ds)
    end.
Proof.
  unfold parseInt; rewrite TrimStart_keeps by reflexivity;
    change (ToInt32 10) with 10; cbn -[radix_digits math_int Z.mul].
  destruct (radix_digits 10 _) as [|d ds]; try reflexivity; f_equal; lia.
Qed.

(** The numeral of every integer is read back with the value of its
    digits; up to [2^53] that is the number JavaScript gives. *)
Lemma parseInt_numeral (z : Z) :
  parseInt (NilZero.string_of_int (Z.to_int z)) 10 = Num z.
Proof.
  destruct z as [|p|p]; [reflexivity | ..];
    pose proof (Unsigned.to_uint_nonnil p) as Hne;
    pose proof (read_pos p) as Hread;
    cbn [Z.to_int NilZero.string_of_int];
    replace (NilZero.string_of_uint (Pos.to_uint p))
      with (NilEmpty.string_of_uint (Pos.to_uint p))
      by (unfold NilZero.string_of_uint; destruct (Pos.to_uint p); congruence).
  - rewrite parseInt_unsigned by assumption. exact Hread.
  - rewrite parseInt_negated.
    destruct (radix_digits 10 _); [discriminate|].
    injection Hread as ->. reflexivity.
Qed.

End Numerals.

(** ** The configuration loader *)

Section Loader.

Variable env : gmap string string.

Example load_defaults :
  Config.load ∅
  = {| BOT_SIDE := "yes"; BOT_PRICE_CENTS := Num 50; BOT_CONTRACTS := Num 1;
       BTC_SERIES_TICKER := "KXBTC15M"; BOT_MAX_MARKETS := Num 1;
       BOT_DRY_RUN := false |}.
Proof. reflexivity. Qed.

Example load_out_of_range :
  BOT_PRICE_CENTS (Config.load Sample.env_out_of_range) = Num 150
  /\ BOT_CONTRACTS (Config.load Sample.env_out_of_range) = Num 0.
Proof. split; reflexivity. Qed.

(** C8. A variable that is unset gives its documented default: side
    ["yes"], price 50, contract count 1, max markets 1, dry-run false.  A
    variable that is set is only parsed: the side is taken as it is, the
    three numbers are whatever [parseInt] reads, the flag is the test
    against ["true"]; in particular the decimal numeral of any integer
    up to [2^53] in magnitude, in the valid range or not, is accepted and
    gives that integer. *)
Theorem loader_defaults_and_parsing (s : string) (z : Z) :
  (BOT_SIDE (Config.load (delete "KALSHI_BOT_SIDE" env)) = "yes"
   /\ BOT_PRICE_CENTS (Config.load (delete "KALSHI_BOT_PRICE_CENTS" env)) = Num 50
   /\ BOT_CONTRACTS (Config.load (delete "KALSHI_BOT_CONTRACTS" env)) = Num 1
   /\ BOT_MAX_MARKETS (Config.load (delete "KALSHI_BOT_MAX_MARKETS" env)) = Num 1
   /\ BOT_DRY_RUN (Config.load (delete "KALSHI_BOT_DRY_RUN" env)) = false)
  /\ (BOT_SIDE (Config.load (<["KALSHI_BOT_SIDE" := s]> env)) = s
      /\ BOT_PRICE_CENTS (Config.load (<["KALSHI_BOT_PRICE_CENTS" := s]> env)) = parseInt s 10
      /\ BOT_CONTRACTS (Config.load (<["KALSHI_BOT_CONTRACTS" := s]> env)) = parseInt s 10
      /\ BOT_MAX_MARKETS (Config.load (<["KALSHI_BOT_MAX_MARKETS" := s]> env)) = parseInt s 10
      /\ BOT_DRY_RUN (Config.load (<["KALSHI_BOT_DRY_RUN" := s]> env)) = String.eqb s "true")
  /\ (- 2 ^ 53 <= z <= 2 ^ 53 ->
      BOT_PRICE_CENTS
        (Config.load (<["KALSHI_BOT_PRICE_CENTS" := Number_toString (Num z)]> env)) = Num z
      /\ BOT_CONTRACTS
           (Config.load (<["KALSHI_BOT_CONTRACTS" := Number_toString (Num z)]> env)) = Num z
      /\ BOT_MAX_MARKETS
           (Config.load (<["KALSHI_BOT_MAX_MARKETS" := Number_toString (Num z)]> env)) = Num z).
Proof.
  unfold Config.load; cbn [BOT_SIDE BOT_PRICE_CENTS BOT_CONTRACTS BOT_MAX_MARKETS BOT_DRY_RUN].
  rewrite !lookup_delete_eq, !lookup_insert_eq.
  cbn [default strict_eq Number_toString id].
  split; [repeat split; reflexivity|]. split; [repeat split; reflexivity|].
  intros Hsafe. rewrite parseInt_numeral. repeat split; reflexivity.
Qed.

End Loader.

Lemma loader_defaults_and_parsing_150 :
  - 2 ^ 53 <= 150 <= 2 ^ 53
  /\ BOT_PRICE_CENTS
       (Config.load (<["KALSHI_BOT_PRICE_CENTS" := Number_toString (Num 150)]> ∅)) = Num 150
  /\ BOT_CONTRACTS
       (Config.load (<["KALSHI_BOT_CONTRACTS" := Number_toString (Num 150)]> ∅)) = Num 150
  /\ BOT_MAX_MARKETS
       (Config.load (<["KALSHI_BOT_MAX_MARKETS" := Number_toString (Num 150)]> ∅)) = Num 150.
Proof.
  split; [lia|].
  refine (proj2 (proj2 (loader_defaults_and_parsing ∅ "" 150)) _). lia.
Defined.

(** ** The runs of the script

    A run is decided by what the three collaborators settle to: the fetch
    finds no market, finds one, or is rejected; the buy is placed, fails
    or is rejected; and so is the sell.  [run_cases] computes the outcome
    of [quickTrade cfg w] in each of the seven cases and leaves one goal
    for each. *)

#[local] Arguments Math_max : simpl never.
#[local] Arguments Math_min : simpl never.
#[local] Arguments Number_toString : simpl never.
#[local] Arguments String.append : simpl never.
#[local] Arguments N.add : simpl never.
#[local] Arguments Z.to_N : simpl never.
#[local] Arguments Z.div : simpl never.

Ltac split_order Hr :=
  match type of Hr with
  | context [match ?x with Fulfilled _ => _ | Rejected _ => _ end] =>
      destruct x as [[?|?]|?] eqn:?; cbn in Hr
  end.

Ltac run_cases cfg w :=
  let r := fresh "r" in
  let Hr := fresh "Hr" in
  remember (quickTrade cfg w) as r eqn:Hr;
  unfold quickTrade, run, script, catch, main, bind, await_getBitcoinUpDownMarkets,
    await_placeOrder, await_placeSellOrder, await in Hr;
  destruct (getBitcoinUpDownMarkets w) as [[|? ?]|?] eqn:?; cbn in Hr;
  [ | split_order Hr; [ split_order Hr | | ] | ];
  subst r; cbn in *.

Section Run.

Variable cfg : Config.t.
Variable w : World.

(** The script reads three of the bindings only. *)
Lemma quickTrade_reads (cfg' : Config.t) :
  BOT_SIDE cfg' = BOT_SIDE cfg ->
  BOT_CONTRACTS cfg' = BOT_CONTRACTS cfg ->
  BOT_PRICE_CENTS cfg' = BOT_PRICE_CENTS cfg ->
  quickTrade cfg' w = quickTrade cfg w.
Proof.
  intros Hs Hc Hp. unfold quickTrade, script, main. now rewrite Hs, Hc, Hp.
Qed.

(** Every order call of a run carries [{ arbLive: true }]. *)
Lemma order_calls_live :
  Forall (fun c => call_opts c = Some {| arbLive := true |})
         (order_calls (events (quickTrade cfg w))).
Proof. run_cases cfg w; repeat constructor. Qed.

(** C2. When the market fetch returns an empty sequence, the process
    exits with status 1 having made no buy call and no sell call; the
    fetch is its only call, and the error line goes to the diagnostic
    stream. *)
Theorem no_market_exits_1 :
  getBitcoinUpDownMarkets w = Fulfilled [] ->
  exitCode (quickTrade cfg w) = 1
  /\ buy_calls (events (quickTrade cfg w)) = []
  /\ sell_calls (events (quickTrade cfg w)) = []
  /\ calls (events (quickTrade cfg w)) = [GetBitcoinUpDownMarkets]
  /\ stderr (events (quickTrade cfg w))
     = ["[Test Kalshi] No open Bitcoin up/down markets found."].
Proof.
  intros Hfetch. run_cases cfg w; try discriminate. repeat split.
Qed.

(** C3. In a run whose buy call returns an error result no sell call is
    made and the process exits with status 1; and in every run, a sell
    call is made only if the buy call returned a success result, and no
    sell call happens before that result. *)
Theorem buy_error_means_no_sell :
  (forall e : string,
      buy_reply (events (quickTrade cfg w)) = Some (Order (Failed e)) ->
      sell_calls (events (quickTrade cfg w)) = []
      /\ exitCode (quickTrade cfg w) = 1)
  /\ (sell_calls (events (quickTrade cfg w)) <> [] ->
      exists id : string,
        buy_reply (events (quickTrade cfg w)) = Some (Order (Placed id)))
  /\ precedes buy_succeeded sell_called (happenings (events (quickTrade cfg w))) = true.
Proof.
  run_cases cfg w; (split; [| split]); try reflexivity;
    try (intros e He; now simplify_eq);
    try (intros Hsell; congruence);
    intros _; eexists; reflexivity.
Qed.

End Run.

(** C1. Whatever the dry-run flag is, the run is the same: the flag
    changed in the bindings, or its variable set to any two values or
    left unset in the environment, gives the same events, hence the same
    order calls with the same arguments, and the same exit status; and
    every buy and sell call of a run receives [{ arbLive: true }]. *)
Theorem dry_run_flag_never_read (cfg : Config.t) (w : World) (b : bool)
    (env : gmap string string) (v1 v2 : string) :
  quickTrade (with_dry_run b cfg) w = quickTrade cfg w
  /\ quickTrade (Config.load (<["KALSHI_BOT_DRY_RUN" := v1]> env)) w
     = quickTrade (Config.load (<["KALSHI_BOT_DRY_RUN" := v2]> env)) w
  /\ quickTrade (Config.load (<["KALSHI_BOT_DRY_RUN" := v1]> env)) w
     = quickTrade (Config.load (delete "KALSHI_BOT_DRY_RUN" env)) w
  /\ Forall (fun c => call_opts c = Some {| arbLive := true |})
            (order_calls (events (quickTrade cfg w))).
Proof.
  split; [reflexivity|].
  split; [| split; [| apply order_calls_live]];
    apply quickTrade_reads; unfold Config.load;
    cbn [BOT_SIDE BOT_CONTRACTS BOT_PRICE_CENTS];
    now rewrite ?lookup_insert_ne, ?lookup_delete_ne by done.
Qed.

(** ** The two order calls *)

Section Orders.

Variable cfg : Config.t.
Variable w : World.

(** C4. In a run whose buy call returns a success result, exactly one
    sell call is made, for the ticker, the side and the clamped count of
    the buy call; the one timer of the run is set for 5000 ms after the
    buy has settled, fires no sooner than 5000 ms later, and the sell
    call is made after it has fired, hence 5000 ms or more after the buy
    has settled. *)
Theorem buy_success_then_one_delayed_sell (id : string) :
  buy_reply (events (quickTrade cfg w)) = Some (Order (Placed id)) ->
  exists (bx sx : exchange) (tk sd : string) (cnt pr : number) (t_set t_fired : N),
    buy_exchange (events (quickTrade cfg w)) = Some bx
    /\ sell_exchange (events (quickTrade cfg w)) = Some sx
    /\ buy_calls (events (quickTrade cfg w)) = [made bx]
    /\ sell_calls (events (quickTrade cfg w)) = [made sx]
    /\ made bx = PlaceOrder tk sd cnt pr {| arbLive := true |}
    /\ made sx = PlaceSellOrder tk sd cnt {| arbLive := true |}
    /\ cnt = Math_max (Num 1) (BOT_CONTRACTS cfg)
    /\ timers (events (quickTrade cfg w)) = [(t_set, 5000, t_fired)]
    /\ (settled_at bx <= t_set)%N
    /\ (t_set + 5000 <= t_fired)%N
    /\ (t_fired <= called_at sx)%N
    /\ (settled_at bx + 5000 <= called_at sx)%N
    /\ precedes timer_fired sell_called (happenings (events (quickTrade cfg w))) = true.
Proof.
  intros Hbuy. run_cases cfg w; try discriminate.
  all: do 8 eexists; repeat (split; [reflexivity|]).
  all: change (Z.to_N DELAY_MS) with 5000%N; cbn [called_at settled_at];
    repeat split; lia.
Qed.

(** C5. In a run in which both calls return success results the process
    exits with status 0, and the standard output shows the buy
    identifier and then the sell identifier, each on its line; nothing
    goes to the diagnostic stream. *)
Theorem both_succeed_exit_0 (b s : string) :
  buy_reply (events (quickTrade cfg w)) = Some (Order (Placed b)) ->
  sell_reply (events (quickTrade cfg w)) = Some (Order (Placed s)) ->
  exitCode (quickTrade cfg w) = 0
  /\ sublist ["[Test Kalshi] Buy placed: " +:+ b; "[Test Kalshi] Sell placed: " +:+ s]
             (stdout (events (quickTrade cfg w)))
  /\ stderr (events (quickTrade cfg w)) = [].
Proof.
  intros Hbuy Hsell. run_cases cfg w; try discriminate.
  simplify_eq. repeat split.
  do 4 apply sublist_cons. apply sublist_skip.
  do 2 apply sublist_cons. apply sublist_skip.
  apply sublist_cons, sublist_nil.
Qed.

(** C6. When a market is found, the price of the buy call is the
    configured price clamped into [1,99]: a configured price outside the
    range, that is below 1 or above 99, gives a price in the range, 1 for
    one below 1 and 99 for one above 99. *)
Theorem price_clamped_into_range (m : Market) (ms : list Market) :
  lt (BOT_PRICE_CENTS cfg) (Num 1) = true \/ lt (Num 99) (BOT_PRICE_CENTS cfg) = true ->
  getBitcoinUpDownMarkets w = Fulfilled (m :: ms) ->
  exists (tk sd : string) (cnt pr : number) (o : ExecOpts),
    buy_calls (events (quickTrade cfg w)) = [PlaceOrder tk sd cnt pr o]
    /\ between 1 99 pr = true
    /\ (lt (BOT_PRICE_CENTS cfg) (Num 1) = true -> pr = Num 1)
    /\ (lt (Num 99) (BOT_PRICE_CENTS cfg) = true -> pr = Num 99).
Proof.
  intros Hout Hfetch.
  destruct (BOT_PRICE_CENTS cfg) as [|z] eqn:Hprice; cbn [lt] in *;
    [destruct Hout; discriminate|].
  assert (Hclamp : Math_max (Num 1) (Math_min (Num 99) (BOT_PRICE_CENTS cfg))
                   = Num (Z.max 1 (Z.min 99 z))) by now rewrite Hprice.
  rewrite !Z.ltb_lt in *.
  run_cases cfg w; try discriminate; rewrite Hclamp.
  all: do 5 eexists; split; [reflexivity|]; cbn [between].
  all: repeat split; [lia | intros; f_equal; lia ..].
Qed.

(** C7. A configured contract count below 1 gives the count 1 in every
    order call of the run, buy and sell; the buy call is made as soon as
    a market is found, the sell call as soon as the buy succeeds. *)
Theorem count_below_1_becomes_1 :
  lt (BOT_CONTRACTS cfg) (Num 1) = true ->
  Forall (fun c => call_count c = Some (Num 1)) (order_calls (events (quickTrade cfg w)))
  /\ (forall m ms, getBitcoinUpDownMarkets w = Fulfilled (m :: ms) ->
      exists c, buy_calls (events (quickTrade cfg w)) = [c])
  /\ (forall id, buy_reply (events (quickTrade cfg w)) = Some (Order (Placed id)) ->
      exists c, sell_calls (events (quickTrade cfg w)) = [c]).
Proof.
  intros Hlt.
  assert (Hclamp : Math_max (Num 1) (BOT_CONTRACTS cfg) = Num 1).
  { destruct (BOT_CONTRACTS cfg) as [|z]; cbn [lt] in Hlt; [discriminate|].
    apply Z.ltb_lt in Hlt. unfold Math_max. f_equal. lia. }
  run_cases cfg w; rewrite ?Hclamp; (split; [repeat constructor | split]).
  all: try (intros; discriminate).
  all: intros; eexists; reflexivity.
Qed.

(** A price that is not a number is handed to the buy call as it is. *)
Lemma nan_price_reaches_buy (m : Market) (ms : list Market) :
  BOT_PRICE_CENTS cfg = NaN ->
  getBitcoinUpDownMarkets w = Fulfilled (m :: ms) ->
  exists (tk sd : string) (cnt : number) (o : ExecOpts),
    buy_calls (events (quickTrade cfg w)) = [PlaceOrder tk sd cnt NaN o].
Proof.
  intros Hprice Hfetch.
  assert (Hclamp : Math_max (Num 1) (Math_min (Num 99) (BOT_PRICE_CENTS cfg)) = NaN)
    by now rewrite Hprice.
  run_cases cfg w; try discriminate; rewrite Hclamp.
  all: do 4 eexists; reflexivity.
Qed.

(** So is a count that is not a number, to the buy call and to the sell
    call. *)
Lemma nan_count_reaches_orders (m : Market) (ms : list Market) :
  BOT_CONTRACTS cfg = NaN ->
  getBitcoinUpDownMarkets w = Fulfilled (m :: ms) ->
  (exists (tk sd : string) (pr : number) (o : ExecOpts),
      buy_calls (events (quickTrade cfg w)) = [PlaceOrder tk sd NaN pr o])
  /\ Forall (fun c => call_count c = Some NaN) (order_calls (events (quickTrade cfg w))).
Proof.
  intros Hcount Hfetch.
  assert (Hclamp : Math_max (Num 1) (BOT_CONTRACTS cfg) = NaN) by now rewrite Hcount.
  run_cases cfg w; try discriminate; rewrite Hclamp.
  all: split; [do 4 eexists; reflexivity | repeat constructor].
Qed.

(** The side of every order call is the configured side, whatever it is. *)
Lemma side_reaches_orders :
  Forall (fun c => call_side c = Some (BOT_SIDE cfg)) (order_calls (events (quickTrade cfg w)))
  /\ (forall id, buy_reply (events (quickTrade cfg w)) = Some (Order (Placed id)) ->
      exists (tk : string) (cnt pr : number) (o o' : ExecOpts),
        order_calls (events (quickTrade cfg w))
        = [PlaceOrder tk (BOT_SIDE cfg) cnt pr o; PlaceSellOrder tk (BOT_SIDE cfg) cnt o']).
Proof.
  run_cases cfg w; (split; [repeat constructor|]).
  all: try (intros; discriminate).
  all: intros; do 5 eexists; reflexivity.
Qed.

End Orders.

(** C9. A value of the price variable that [parseInt] cannot read (any
    such string; ["abc"] is one) gives the price [NaN]; the clamp leaves
    it [NaN], and when a market is found that is the price of the buy
    call, which is not in [1,99].  In the same way such a value of the
    count variable gives the count [NaN] in the buy call and in the sell
    call. *)
Theorem unreadable_number_reaches_orders (env : gmap string string) (w : World)
    (s : string) (m : Market) (ms : list Market) :
  parseInt s 10 = NaN ->
  getBitcoinUpDownMarkets w = Fulfilled (m :: ms) ->
  parseInt "abc" 10 = NaN
  /\ (let cfg := Config.load (<["KALSHI_BOT_PRICE_CENTS" := s]> env) in
      BOT_PRICE_CENTS cfg = NaN
      /\ Math_max (Num 1) (Math_min (Num 99) (BOT_PRICE_CENTS cfg)) = NaN
      /\ exists (tk sd : string) (cnt pr : number) (o : ExecOpts),
           buy_calls (events (quickTrade cfg w)) = [PlaceOrder tk sd cnt pr o]
           /\ pr = NaN /\ between 1 99 pr = false)
  /\ (let cfg := Config.load (<["KALSHI_BOT_CONTRACTS" := s]> env) in
      BOT_CONTRACTS cfg = NaN
      /\ Math_max (Num 1) (BOT_CONTRACTS cfg) = NaN
      /\ (exists (tk sd : string) (pr : number) (o : ExecOpts),
             buy_calls (events (quickTrade cfg w)) = [PlaceOrder tk sd NaN pr o])
      /\ Forall (fun c => call_count c = Some NaN) (order_calls (events (quickTrade cfg w)))).
Proof.
  intros Hs Hfetch. split; [reflexivity|]. split; intros cfg.
  - assert (Hp : BOT_PRICE_CENTS cfg = NaN).
    { unfold cfg, Config.load; cbn [BOT_PRICE_CENTS].
      now rewrite lookup_insert_eq. }
    split; [exact Hp|]. split; [now rewrite Hp|].
    destruct (nan_price_reaches_buy cfg w m ms Hp Hfetch) as (tk & sd & cnt & o & Hb).
    exists tk, sd, cnt, NaN, o. repeat split. exact Hb.
  - assert (Hc : BOT_CONTRACTS cfg = NaN).
    { unfold cfg, Config.load; cbn [BOT_CONTRACTS].
      now rewrite lookup_insert_eq. }
    split; [exact Hc|]. split; [now rewrite Hc|].
    exact (nan_count_reaches_orders cfg w m ms Hc Hfetch).
Qed.

(** C10. Whatever string the side variable holds, the loader returns it
    unchanged, and it is the side of every order call of the run: of the
    buy call and of the sell call, when both are made. *)
Theorem side_is_passed_unchecked (env : gmap string string) (w : World) (side : string) :
  let cfg := Config.load (<["KALSHI_BOT_SIDE" := side]> env) in
  BOT_SIDE cfg = side
  /\ Forall (fun c => call_side c = Some side) (order_calls (events (quickTrade cfg w)))
  /\ (forall id, buy_reply (events (quickTrade cfg w)) = Some (Order (Placed id)) ->
      exists (tk : string) (cnt pr : number) (o o' : ExecOpts),
        order_calls (events (quickTrade cfg w))
        = [PlaceOrder tk side cnt pr o; PlaceSellOrder tk side cnt o']).
Proof.
  intros cfg.
  assert (Hside : BOT_SIDE cfg = side).
  { unfold cfg, Config.load; cbn [BOT_SIDE]. now rewrite lookup_insert_eq. }
  split; [exact Hside|]. rewrite <- Hside. apply side_reaches_orders.
Qed.

(** ** The statements on sample runs *)

Example calm_run_stdout :
  stdout (events (quickTrade (Config.load ∅) Sample.calm))
  = [ "[Test Kalshi] Fetching open Bitcoin 15m up/down markets...";
      "[Test Kalshi] Market: ABC";
      "[Test Kalshi] Side: yes (yes=up, no=down), count=1, price=50c";
      "[Test Kalshi] Placing BUY...";
      "[Test Kalshi] Buy placed: b1";
      "[Test Kalshi] Waiting 5s...";
      "[Test Kalshi] Placing SELL to exit...";
      "[Test Kalshi] Sell placed: s1";
      "[Test Kalshi] Done." ].
Proof. reflexivity. Qed.

Example out_of_range_run_calls :
  calls (events (quickTrade (Config.load Sample.env_out_of_range) Sample.calm))
  = [ GetBitcoinUpDownMarkets;
      PlaceOrder "ABC" "yes" (Num 1) (Num 99) {| arbLive := true |};
      PlaceSellOrder "ABC" "yes" (Num 1) {| arbLive := true |} ].
Proof. reflexivity. Qed.

Example not_numeric_run_calls :
  calls (events (quickTrade (Config.load Sample.env_not_numeric) Sample.calm))
  = [ GetBitcoinUpDownMarkets;
      PlaceOrder "ABC" "yes" NaN NaN {| arbLive := true |};
      PlaceSellOrder "ABC" "yes" NaN {| arbLive := true |} ].
Proof. reflexivity. Qed.

Example dry_run_set_same_run :
  BOT_DRY_RUN (Config.load {[ "KALSHI_BOT_DRY_RUN" := "true" ]}) = true
  /\ BOT_DRY_RUN (Config.load ∅) = false
  /\ quickTrade (Config.load {[ "KALSHI_BOT_DRY_RUN" := "true" ]}) Sample.calm
     = quickTrade (Config.load ∅) Sample.calm.
Proof. repeat split. Qed.

Example rejected_fetch_exits_1 :
  quickTrade (Config.load ∅)
    {| getBitcoinUpDownMarkets := Rejected "401 Unauthorized";
       placeOrder := placeOrder Sample.calm;
       placeSellOrder := placeSellOrder Sample.calm;
       latency := latency Sample.calm;
       timer_lag := 0%N |}
  = {| events := [ (0%N, Stdout "[Test Kalshi] Fetching open Bitcoin 15m up/down markets...");
                   (0%N, Call GetBitcoinUpDownMarkets);
                   (120%N, Settle (Raised "401 Unauthorized"));
                   (120%N, Stderr "401 Unauthorized") ];
       exitCode := 1 |}.
Proof. reflexivity. Qed.

Lemma no_market_exits_1_closed :
  getBitcoinUpDownMarkets Sample.closed = Fulfilled []
  /\ (exitCode (quickTrade (Config.load ∅) Sample.closed) = 1
      /\ buy_calls (events (quickTrade (Config.load ∅) Sample.closed)) = []
      /\ sell_calls (events (quickTrade (Config.load ∅) Sample.closed)) = []
      /\ calls (events (quickTrade (Config.load ∅) Sample.closed)) = [GetBitcoinUpDownMarkets]
      /\ stderr (events (quickTrade (Config.load ∅) Sample.closed))
         = ["[Test Kalshi] No open Bitcoin up/down markets found."]).
Proof.
  split; [reflexivity|].
  apply (no_market_exits_1 (Config.load ∅) Sample.closed). reflexivity.
Defined.

Lemma buy_error_means_no_sell_refusing :
  buy_reply (events (quickTrade (Config.load ∅) Sample.refusing))
  = Some (Order (Failed "insufficient balance"))
  /\ (sell_calls (events (quickTrade (Config.load ∅) Sample.refusing)) = []
      /\ exitCode (quickTrade (Config.load ∅) Sample.refusing) = 1).
Proof.
  split; [reflexivity|].
  apply (proj1 (buy_error_means_no_sell (Config.load ∅) Sample.refusing)
               "insufficient balance").
  reflexivity.
Defined.

Lemma buy_success_then_one_delayed_sell_calm :
  buy_reply (events (quickTrade (Config.load ∅) Sample.calm)) = Some (Order (Placed "b1"))
  /\ exists (bx sx : exchange) (tk sd : string) (cnt pr : number) (t_set t_fired : N),
       buy_exchange (events (quickTrade (Config.load ∅) Sample.calm)) = Some bx
       /\ sell_exchange (events (quickTrade (Config.load ∅) Sample.calm)) = Some sx
       /\ buy_calls (events (quickTrade (Config.load ∅) Sample.calm)) = [made bx]
       /\ sell_calls (events (quickTrade (Config.load ∅) Sample.calm)) = [made sx]
       /\ made bx = PlaceOrder tk sd cnt pr {| arbLive := true |}
       /\ made sx = PlaceSellOrder tk sd cnt {| arbLive := true |}
       /\ cnt = Math_max (Num 1) (BOT_CONTRACTS (Config.load ∅))
       /\ timers (events (quickTrade (Config.load ∅) Sample.calm)) = [(t_set, 5000, t_fired)]
       /\ (settled_at bx <= t_set)%N
       /\ (t_set + 5000 <= t_fired)%N
       /\ (t_fired <= called_at sx)%N
       /\ (settled_at bx + 5000 <= called_at sx)%N
       /\ precedes timer_fired sell_called
            (happenings (events (quickTrade (Config.load ∅) Sample.calm))) = true.
Proof.
  split; [reflexivity|].
  apply (buy_success_then_one_delayed_sell (Config.load ∅) Sample.calm "b1").
  reflexivity.
Defined.

Lemma both_succeed_exit_0_scenario :
  buy_reply (events (quickTrade (Config.load ∅) Sample.calm)) = Some (Order (Placed "b1"))
  /\ sell_reply (events (quickTrade (Config.load ∅) Sample.calm)) = Some (Order (Placed "s1"))
  /\ (exitCode (quickTrade (Config.load ∅) Sample.calm) = 0
      /\ sublist ["[Test Kalshi] Buy placed: b1"; "[Test Kalshi] Sell placed: s1"]
                 (stdout (events (quickTrade (Config.load ∅) Sample.calm)))
      /\ stderr (events (quickTrade (Config.load ∅) Sample.calm)) = []).
Proof.
  split; [reflexivity|]. split; [reflexivity|].
  apply (both_succeed_exit_0 (Config.load ∅) Sample.calm "b1" "s1"); reflexivity.
Defined.

Lemma price_clamped_into_range_150 :
  BOT_PRICE_CENTS (Config.load Sample.env_out_of_range) = Num 150
  /\ (lt (BOT_PRICE_CENTS (Config.load Sample.env_out_of_range)) (Num 1) = true
      \/ lt (Num 99) (BOT_PRICE_CENTS (Config.load Sample.env_out_of_range)) = true)
  /\ getBitcoinUpDownMarkets Sample.calm = Fulfilled [ {| ticker := "ABC" |} ]
  /\ buy_calls (events (quickTrade (Config.load Sample.env_out_of_range) Sample.calm))
     = [PlaceOrder "ABC" "yes" (Num 1) (Num 99) {| arbLive := true |}]
  /\ exists (tk sd : string) (cnt pr : number) (o : ExecOpts),
       buy_calls (events (quickTrade (Config.load Sample.env_out_of_range) Sample.calm))
       = [PlaceOrder tk sd cnt pr o]
       /\ between 1 99 pr = true
       /\ (lt (BOT_PRICE_CENTS (Config.load Sample.env_out_of_range)) (Num 1) = true
           -> pr = Num 1)
       /\ (lt (Num 99) (BOT_PRICE_CENTS (Config.load Sample.env_out_of_range)) = true
           -> pr = Num 99).
Proof.
  split; [reflexivity|]. split; [right; reflexivity|]. split; [reflexivity|].
  split; [reflexivity|].
  apply (price_clamped_into_range (Config.load Sample.env_out_of_range) Sample.calm
           {| ticker := "ABC" |} []); [right; reflexivity | reflexivity].
Defined.

Lemma count_below_1_becomes_1_zero :
  BOT_CONTRACTS (Config.load Sample.env_out_of_range) = Num 0
  /\ lt (BOT_CONTRACTS (Config.load Sample.env_out_of_range)) (Num 1) = true
  /\ order_calls (events (quickTrade (Config.load Sample.env_out_of_range) Sample.calm))
     = [ PlaceOrder "ABC" "yes" (Num 1) (Num 99) {| arbLive := true |};
         PlaceSellOrder "ABC" "yes" (Num 1) {| arbLive := true |} ]
  /\ Forall (fun c => call_count c = Some (Num 1))
       (order_calls (events (quickTrade (Config.load Sample.env_out_of_range) Sample.calm))).
Proof.
  split; [reflexivity|]. split; [reflexivity|]. split; [reflexivity|].
  apply (count_below_1_becomes_1 (Config.load Sample.env_out_of_range) Sample.calm).
  reflexivity.
Defined.

Lemma unreadable_number_reaches_orders_abc :
  parseInt "abc" 10 = NaN
  /\ getBitcoinUpDownMarkets Sample.calm = Fulfilled [ {| ticker := "ABC" |} ]
  /\ (exists (tk sd : string) (cnt pr : number) (o : ExecOpts),
         buy_calls (events (quickTrade
                      (Config.load (<["KALSHI_BOT_PRICE_CENTS" := "abc"]> ∅)) Sample.calm))
         = [PlaceOrder tk sd cnt pr o]
         /\ pr = NaN /\ between 1 99 pr = false)
  /\ Forall (fun c => call_count c = Some NaN)
       (order_calls (events (quickTrade
                       (Config.load (<["KALSHI_BOT_CONTRACTS" := "abc"]> ∅)) Sample.calm))).
Proof.
  split; [reflexivity|]. split; [reflexivity|].
  pose proof (unreadable_number_reaches_orders ∅ Sample.calm "abc" {| ticker := "ABC" |} []
                eq_refl eq_refl) as (_ & (_ & _ & Hprice) & (_ & _ & _ & Hcount)).
  split; [exact Hprice | exact Hcount].
Defined.

Lemma side_is_passed_unchecked_maybe :
  buy_reply (events (quickTrade (Config.load Sample.env_sideways) Sample.calm))
  = Some (Order (Placed "b1"))
  /\ BOT_SIDE (Config.load Sample.env_sideways) = "maybe"
  /\ exists (tk : string) (cnt pr : number) (o o' : ExecOpts),
       order_calls (events (quickTrade (Config.load Sample.env_sideways) Sample.calm))
       = [PlaceOrder tk "maybe" cnt pr o; PlaceSellOrder tk "maybe" cnt o'].
Proof.
  split; [reflexivity|].
  pose proof (side_is_passed_unchecked ∅ Sample.calm "maybe") as (Hside & _ & Hcalls).
  split; [exact Hside|]. apply (Hcalls "b1"). reflexivity.
Defined.

(** * Further properties of the script *)

(** ** Exit status and the two streams *)

Section Status.

Variable cfg : Config.t.
Variable w : World.

(** X1. The exit status is 0 or 1, and it is 0 exactly when the buy call
    and the sell call both returned an order identifier. *)
Theorem exit_0_iff_both_placed :
  (exitCode (quickTrade cfg w) = 0 \/ exitCode (quickTrade cfg w) = 1)
  /\ (exitCode (quickTrade cfg w) = 0 <->
      exists b s : string,
        buy_reply (events (quickTrade cfg w)) = Some (Order (Placed b))
        /\ sell_reply (events (quickTrade cfg w)) = Some (Order (Placed s))).
Proof.
  run_cases cfg w; (split; [auto|]); split.
  all: try (intros H; discriminate H).
  all: try (intros (b & s & Hb & Hs); discriminate).
  - intros _. do 2 eexists. split; reflexivity.
  - intros _. reflexivity.
Qed.

(** X2. The calls of a run are the fetch, then at most one buy, then at
    most one sell; and a buy call is made exactly when the fetch returned
    a market. *)
Theorem calls_fetch_buy_sell :
  (calls (events (quickTrade cfg w)) = [GetBitcoinUpDownMarkets]
   \/ (exists b, calls (events (quickTrade cfg w)) = [GetBitcoinUpDownMarkets; b]
                 /\ is_buy b = true)
   \/ (exists b s, calls (events (quickTrade cfg w)) = [GetBitcoinUpDownMarkets; b; s]
                   /\ is_buy b = true /\ is_sell s = true))
  /\ (buy_calls (events (quickTrade cfg w)) <> [] <->
      exists m ms, getBitcoinUpDownMarkets w = Fulfilled (m :: ms)).
Proof.
  run_cases cfg w; split.
  all: try (left; reflexivity).
  all: try (right; left; eexists; split; reflexivity).
  all: try (right; right; do 2 eexists; repeat split; reflexivity).
  all: split; try (intros H; congruence); try (intros (m' & ms' & H); discriminate).
  all: intros _; do 2 eexists; reflexivity.
Qed.

(** X3. At most one line goes to the diagnostic stream, and none does
    exactly when the exit status is 0. *)
Theorem stderr_line_iff_failure :
  (length (stderr (events (quickTrade cfg w))) <= 1)%nat
  /\ (exitCode (quickTrade cfg w) = 0 <-> stderr (events (quickTrade cfg w)) = []).
Proof.
  run_cases cfg w; (split; [lia|]); split; intros H; try reflexivity; discriminate H.
Qed.

(** X4. The standard output starts with the line that announces the
    fetch, and it ends with the line ["[Test Kalshi] Done."] exactly when
    the exit status is 0. *)
Theorem stdout_first_and_last_line :
  head (stdout (events (quickTrade cfg w)))
  = Some "[Test Kalshi] Fetching open Bitcoin 15m up/down markets..."
  /\ (last (stdout (events (quickTrade cfg w))) = Some "[Test Kalshi] Done."
      <-> exitCode (quickTrade cfg w) = 0).
Proof.
  run_cases cfg w; (split; [reflexivity|]); split; intros H;
    try reflexivity; discriminate H.
Qed.

End Status.

(** ** How a run fails *)

Section Failures.

Variable cfg : Config.t.
Variable w : World.

(** X5. When the buy call returns an error result, its message is the one
    line on the diagnostic stream, the last line of the standard output
    is the announcement of the buy, and no timer is set. *)
Theorem buy_error_is_reported (e : string) :
  buy_reply (events (quickTrade cfg w)) = Some (Order (Failed e)) ->
  stderr (events (quickTrade cfg w)) = ["[Test Kalshi] Buy failed: " +:+ e]
  /\ last (stdout (events (quickTrade cfg w))) = Some "[Test Kalshi] Placing BUY..."
  /\ timers (events (quickTrade cfg w)) = [].
Proof.
  intros Hbuy. run_cases cfg w; try discriminate. simplify_eq. repeat split.
Qed.

(** X6. When the sell call returns an error result, the process exits
    with status 1 and the message is the one line on the diagnostic
    stream; the buy was placed before, its identifier is on the standard
    output, and the sell is not called again. *)
Theorem sell_error_is_reported (e : string) :
  sell_reply (events (quickTrade cfg w)) = Some (Order (Failed e)) ->
  exitCode (quickTrade cfg w) = 1
  /\ stderr (events (quickTrade cfg w)) = ["[Test Kalshi] Sell failed: " +:+ e]
  /\ length (sell_calls (events (quickTrade cfg w))) = 1%nat
  /\ exists b : string,
       buy_reply (events (quickTrade cfg w)) = Some (Order (Placed b))
       /\ In ("[Test Kalshi] Buy placed: " +:+ b) (stdout (events (quickTrade cfg w))).
Proof.
  intros Hsell. run_cases cfg w; try discriminate. simplify_eq.
  repeat split. eexists. split; [reflexivity|]. cbn. tauto.
Qed.

(** X7. When a collaborator call is rejected, whichever of the three it
    is, the reason is the one line on the diagnostic stream, the process
    exits with status 1, and the rejected call is the last call of the
    run. *)
Theorem rejection_is_reported (reason : string) :
  In reason (rejections (events (quickTrade cfg w))) ->
  exitCode (quickTrade cfg w) = 1
  /\ stderr (events (quickTrade cfg w)) = [reason]
  /\ exists x : exchange,
       last (exchanges (events (quickTrade cfg w))) = Some x
       /\ answer x = Raised reason
       /\ last (calls (events (quickTrade cfg w))) = Some (made x).
Proof.
  intros Hin. run_cases cfg w; try (destruct Hin as [Hin|[]]); try contradiction;
    subst; repeat split; eexists; repeat split.
Qed.

(** X8. The reasons that reach the diagnostic stream through the handler
    of the module body are rejections of collaborator calls: reading
    [markets[0].ticker] never throws, and a run records at most one
    rejection. *)
Theorem only_collaborators_throw :
  (length (rejections (events (quickTrade cfg w))) <= 1)%nat
  /\ (rejections (events (quickTrade cfg w)) = []
      -> stderr (events (quickTrade cfg w)) = []
         \/ stderr (events (quickTrade cfg w))
            = ["[Test Kalshi] No open Bitcoin up/down markets found."]
         \/ (exists e, stderr (events (quickTrade cfg w)) = ["[Test Kalshi] Buy failed: " +:+ e])
         \/ (exists e, stderr (events (quickTrade cfg w)) = ["[Test Kalshi] Sell failed: " +:+ e])).
Proof.
  run_cases cfg w; (split; [lia|]); intros H; try discriminate H.
  - right; left; reflexivity.
  - left; reflexivity.
  - right; right; right. eexists; reflexivity.
  - right; right; left. eexists; reflexivity.
Qed.

(** X9. A run whose buy call returned an order identifier sets exactly
    one timer, of 5000 ms; any other run sets none. *)
Theorem timer_only_after_buy :
  ((exists id : string,
       buy_reply (events (quickTrade cfg w)) = Some (Order (Placed id))) ->
   exists t t' : N, timers (events (quickTrade cfg w)) = [(t, 5000, t')])
  /\ ((forall id : string,
         buy_reply (events (quickTrade cfg w)) <> Some (Order (Placed id))) ->
      timers (events (quickTrade cfg w)) = []).
Proof.
  run_cases cfg w; split.
  all: try (intros (id & Hid); discriminate Hid).
  all: try (intros _; reflexivity).
  all: try (intros _; do 2 eexists; reflexivity).
  all: intros Hnot; exfalso; eapply Hnot; reflexivity.
Qed.

(** X10. Once the buy call has returned an order identifier, the
    identifier and the announcement of the wait are on the standard
    output, whatever becomes of the sell call. *)
Theorem placed_buy_is_logged (b : string) :
  buy_reply (events (quickTrade cfg w)) = Some (Order (Placed b)) ->
  sublist ["[Test Kalshi] Buy placed: " +:+ b; "[Test Kalshi] Waiting 5s...";
           "[Test Kalshi] Placing SELL to exit..."]
          (stdout (events (quickTrade cfg w))).
Proof.
  intros Hbuy. run_cases cfg w; try discriminate; simplify_eq.
  all: do 4 apply sublist_cons; do 3 apply sublist_skip;
    repeat apply sublist_cons; apply sublist_nil.
Qed.

(** X11. The orders are for the first market the fetch returned: its
    ticker is the ticker of every order call and is on the standard
    output, whatever markets follow it. *)
Theorem first_market_is_traded (m : Market) (ms : list Market) :
  getBitcoinUpDownMarkets w = Fulfilled (m :: ms) ->
  Forall (fun c => call_ticker c = Some (ticker m)) (order_calls (events (quickTrade cfg w)))
  /\ length (buy_calls (events (quickTrade cfg w))) = 1%nat
  /\ stdout (events (quickTrade cfg w)) !! 1%nat = Some ("[Test Kalshi] Market: " +:+ ticker m).
Proof.
  intros Hfetch. run_cases cfg w; try discriminate; simplify_eq;
    repeat split; repeat constructor.
Qed.

End Failures.

Lemma timer_only_after_buy_calm_and_refusing :
  (exists id : string,
      buy_reply (events (quickTrade (Config.load ∅) Sample.calm)) = Some (Order (Placed id)))
  /\ (exists t t' : N,
         timers (events (quickTrade (Config.load ∅) Sample.calm)) = [(t, 5000, t')])
  /\ (forall id : string,
         buy_reply (events (quickTrade (Config.load ∅) Sample.refusing))
         <> Some (Order (Placed id)))
  /\ timers (events (quickTrade (Config.load ∅) Sample.refusing)) = [].
Proof.
  split; [exists "b1"; reflexivity|].
  split; [apply (proj1 (timer_only_after_buy (Config.load ∅) Sample.calm));
          exists "b1"; reflexivity|].
  split; [intros id; discriminate|].
  apply (proj2 (timer_only_after_buy (Config.load ∅) Sample.refusing)).
  intros id; discriminate.
Defined.

(** ** The arguments of the order calls *)

Section Arguments.

Variable cfg : Config.t.
Variable w : World.

(** X12. A configured price in [1,99] is the price of the buy call,
    unchanged. *)
Theorem price_in_range_unchanged (m : Market) (ms : list Market) :
  between 1 99 (BOT_PRICE_CENTS cfg) = true ->
  getBitcoinUpDownMarkets w = Fulfilled (m :: ms) ->
  exists (tk sd : string) (cnt : number) (o : ExecOpts),
    buy_calls (events (quickTrade cfg w))
    = [PlaceOrder tk sd cnt (BOT_PRICE_CENTS cfg) o].
Proof.
  intros Hin Hfetch.
  assert (Hclamp : Math_max (Num 1) (Math_min (Num 99) (BOT_PRICE_CENTS cfg))
                   = BOT_PRICE_CENTS cfg).
  { destruct (BOT_PRICE_CENTS cfg) as [|z]; cbn [between] in Hin; [discriminate|].
    apply andb_true_iff in Hin as [H1 H2]. apply Z.leb_le in H1, H2.
    unfold Math_max, Math_min. f_equal. lia. }
  run_cases cfg w; try discriminate; rewrite Hclamp.
  all: do 4 eexists; reflexivity.
Qed.

(** X13. A configured contract count above 0 is the count of every order
    call, unchanged: there is no upper bound on it. *)
Theorem count_above_0_unchanged :
  lt (Num 0) (BOT_CONTRACTS cfg) = true ->
  Forall (fun c => call_count c = Some (BOT_CONTRACTS cfg))
         (order_calls (events (quickTrade cfg w))).
Proof.
  intros Hpos.
  assert (Hclamp : Math_max (Num 1) (BOT_CONTRACTS cfg) = BOT_CONTRACTS cfg).
  { destruct (BOT_CONTRACTS cfg) as [|z]; cbn [lt] in Hpos; [discriminate|].
    apply Z.ltb_lt in Hpos. unfold Math_max. f_equal. lia. }
  run_cases cfg w; rewrite ?Hclamp; repeat constructor.
Qed.

(** X14. In every run, the price of a buy call is in [1,99] unless the
    configured price is [NaN], and the count of an order call is 1 or
    more unless the configured count is [NaN]; then they are [NaN]. *)
Theorem order_arguments_valid_or_NaN :
  Forall (fun c => exists p, call_price c = Some p
                             /\ (between 1 99 p = true
                                 \/ (p = NaN /\ BOT_PRICE_CENTS cfg = NaN)))
         (buy_calls (events (quickTrade cfg w)))
  /\ Forall (fun c => exists n, call_count c = Some n
                                /\ (lt (Num 0) n = true
                                    \/ (n = NaN /\ BOT_CONTRACTS cfg = NaN)))
            (order_calls (events (quickTrade cfg w))).
Proof.
  assert (Hp : between 1 99 (Math_max (Num 1) (Math_min (Num 99) (BOT_PRICE_CENTS cfg))) = true
               \/ (Math_max (Num 1) (Math_min (Num 99) (BOT_PRICE_CENTS cfg)) = NaN
                   /\ BOT_PRICE_CENTS cfg = NaN)).
  { destruct (BOT_PRICE_CENTS cfg) as [|z]; [right; split; reflexivity|].
    left. unfold Math_max, Math_min, between.
    apply andb_true_iff. split; apply Z.leb_le; lia. }
  assert (Hc : lt (Num 0) (Math_max (Num 1) (BOT_CONTRACTS cfg)) = true
               \/ (Math_max (Num 1) (BOT_CONTRACTS cfg) = NaN
                   /\ BOT_CONTRACTS cfg = NaN)).
  { destruct (BOT_CONTRACTS cfg) as [|z]; [right; split; reflexivity|].
    left. unfold Math_max, lt. apply Z.ltb_lt. lia. }
  run_cases cfg w; split; repeat constructor; eexists; (split; [reflexivity|]); assumption.
Qed.

(** X15. The line of the standard output that shows side, count and
    price shows the arguments of the buy call, the clamped values and not
    the configured ones. *)
Theorem logged_arguments_are_the_effective_ones (m : Market) (ms : list Market) :
  getBitcoinUpDownMarkets w = Fulfilled (m :: ms) ->
  exists (tk sd : string) (cnt pr : number) (o : ExecOpts),
    buy_calls (events (quickTrade cfg w)) = [PlaceOrder tk sd cnt pr o]
    /\ stdout (events (quickTrade cfg w)) !! 2%nat
       = Some ("[Test Kalshi] Side: " +:+ sd +:+ " (yes=up, no=down), count="
               +:+ Number_toString cnt +:+ ", price=" +:+ Number_toString pr +:+ "c").
Proof.
  intros Hfetch. run_cases cfg w; try discriminate.
  all: do 5 eexists; split; reflexivity.
Qed.

End Arguments.

Lemma buy_error_is_reported_refusing :
  buy_reply (events (quickTrade (Config.load ∅) Sample.refusing))
  = Some (Order (Failed "insufficient balance"))
  /\ stderr (events (quickTrade (Config.load ∅) Sample.refusing))
     = ["[Test Kalshi] Buy failed: insufficient balance"]
  /\ last (stdout (events (quickTrade (Config.load ∅) Sample.refusing)))
     = Some "[Test Kalshi] Placing BUY..."
  /\ timers (events (quickTrade (Config.load ∅) Sample.refusing)) = [].
Proof.
  split; [reflexivity|].
  apply (buy_error_is_reported (Config.load ∅) Sample.refusing "insufficient balance").
  reflexivity.
Defined.

Lemma sell_error_is_reported_stuck :
  sell_reply (events (quickTrade (Config.load ∅) stuck)) = Some (Order (Failed "no position"))
  /\ exitCode (quickTrade (Config.load ∅) stuck) = 1
  /\ stderr (events (quickTrade (Config.load ∅) stuck))
     = ["[Test Kalshi] Sell failed: no position"]
  /\ length (sell_calls (events (quickTrade (Config.load ∅) stuck))) = 1%nat
  /\ exists b : string,
       buy_reply (events (quickTrade (Config.load ∅) stuck)) = Some (Order (Placed b))
       /\ In ("[Test Kalshi] Buy placed: " +:+ b)
             (stdout (events (quickTrade (Config.load ∅) stuck))).
Proof.
  split; [reflexivity|].
  apply (sell_error_is_reported (Config.load ∅) stuck "no position"). reflexivity.
Defined.

Lemma rejection_is_reported_offline :
  In "401 Unauthorized" (rejections (events (quickTrade (Config.load ∅) offline)))
  /\ exitCode (quickTrade (Config.load ∅) offline) = 1
  /\ stderr (events (quickTrade (Config.load ∅) offline)) = ["401 Unauthorized"]
  /\ exists x : exchange,
       last (exchanges (events (quickTrade (Config.load ∅) offline))) = Some x
       /\ answer x = Raised "401 Unauthorized"
       /\ last (calls (events (quickTrade (Config.load ∅) offline))) = Some (made x).
Proof.
  split; [left; reflexivity|].
  apply (rejection_is_reported (Config.load ∅) offline "401 Unauthorized").
  left; reflexivity.
Defined.

Lemma placed_buy_is_logged_stuck :
  buy_reply (events (quickTrade (Config.load ∅) stuck)) = Some (Order (Placed "b1"))
  /\ sublist ["[Test Kalshi] Buy placed: b1"; "[Test Kalshi] Waiting 5s...";
              "[Test Kalshi] Placing SELL to exit..."]
             (stdout (events (quickTrade (Config.load ∅) stuck))).
Proof.
  split; [reflexivity|].
  apply (placed_buy_is_logged (Config.load ∅) stuck "b1"). reflexivity.
Defined.

Lemma first_market_is_traded_of_two :
  getBitcoinUpDownMarkets Sample.refusing
  = Fulfilled ({| ticker := "ABC" |} :: [ {| ticker := "DEF" |} ])
  /\ Forall (fun c => call_ticker c = Some "ABC")
            (order_calls (events (quickTrade (Config.load ∅) Sample.refusing)))
  /\ length (buy_calls (events (quickTrade (Config.load ∅) Sample.refusing))) = 1%nat
  /\ stdout (events (quickTrade (Config.load ∅) Sample.refusing)) !! 1%nat
     = Some "[Test Kalshi] Market: ABC".
Proof.
  split; [reflexivity|].
  apply (first_market_is_traded (Config.load ∅) Sample.refusing
           {| ticker := "ABC" |} [ {| ticker := "DEF" |} ]).
  reflexivity.
Defined.

Lemma price_in_range_unchanged_50 :
  BOT_PRICE_CENTS (Config.load ∅) = Num 50
  /\ between 1 99 (BOT_PRICE_CENTS (Config.load ∅)) = true
  /\ getBitcoinUpDownMarkets Sample.calm = Fulfilled [ {| ticker := "ABC" |} ]
  /\ exists (tk sd : string) (cnt : number) (o : ExecOpts),
       buy_calls (events (quickTrade (Config.load ∅) Sample.calm))
       = [PlaceOrder tk sd cnt (BOT_PRICE_CENTS (Config.load ∅)) o].
Proof.
  split; [reflexivity|]. split; [reflexivity|]. split; [reflexivity|].
  apply (price_in_range_unchanged (Config.load ∅) Sample.calm {| ticker := "ABC" |} []);
    reflexivity.
Defined.

Lemma count_above_0_unchanged_250 :
  BOT_CONTRACTS (Config.load {[ "KALSHI_BOT_CONTRACTS" := "250" ]}) = Num 250
  /\ lt (Num 0) (BOT_CONTRACTS (Config.load {[ "KALSHI_BOT_CONTRACTS" := "250" ]})) = true
  /\ Forall (fun c => call_count c
                      = Some (BOT_CONTRACTS (Config.load {[ "KALSHI_BOT_CONTRACTS" := "250" ]})))
       (order_calls (events (quickTrade (Config.load {[ "KALSHI_BOT_CONTRACTS" := "250" ]})
                               Sample.calm))).
Proof.
  split; [reflexivity|]. split; [reflexivity|].
  apply (count_above_0_unchanged (Config.load {[ "KALSHI_BOT_CONTRACTS" := "250" ]})
           Sample.calm).
  reflexivity.
Defined.

Lemma logged_arguments_are_the_effective_ones_150 :
  getBitcoinUpDownMarkets Sample.calm = Fulfilled [ {| ticker := "ABC" |} ]
  /\ stdout (events (quickTrade (Config.load Sample.env_out_of_range) Sample.calm)) !! 2%nat
     = Some "[Test Kalshi] Side: yes (yes=up, no=down), count=1, price=99c"
  /\ exists (tk sd : string) (cnt pr : number) (o : ExecOpts),
       buy_calls (events (quickTrade (Config.load Sample.env_out_of_range) Sample.calm))
       = [PlaceOrder tk sd cnt pr o]
       /\ stdout (events (quickTrade (Config.load Sample.env_out_of_range) Sample.calm)) !! 2%nat
          = Some ("[Test Kalshi] Side: " +:+ sd +:+ " (yes=up, no=down), count="
                  +:+ Number_toString cnt +:+ ", price=" +:+ Number_toString pr +:+ "c").
Proof.
  split; [reflexivity|]. split; [reflexivity|].
  apply (logged_arguments_are_the_effective_ones (Config.load Sample.env_out_of_range)
           Sample.calm {| ticker := "ABC" |} []).
  reflexivity.
Defined.

(** ** What the loader accepts *)

Section Reading.

Lemma append_cons (c : ascii) (s r : string) :
  String c s +:+ r = String c (s +:+ r).
Proof. reflexivity. Qed.

Lemma append_empty (r : string) : "" +:+ r = r.
Proof. reflexivity. Qed.

(** White space in front is skipped. *)
Lemma parseInt_skips_space (c : ascii) (s : string) (radix : Z) :
  ws1 (code c) = true -> parseInt (String c s) radix = parseInt s radix.
Proof. intros Hws. unfold parseInt. cbn [TrimStart]. now rewrite Hws. Qed.

Lemma parseInt_skips_blank (pre s : string) (radix : Z) :
  blank pre = true -> parseInt (pre +:+ s) radix = parseInt s radix.
Proof.
  induction pre as [|c pre IH]; intros Hb; [reflexivity|].
  cbn [blank] in Hb. apply andb_true_iff in Hb as [Hc Hpre].
  rewrite append_cons, parseInt_skips_space by assumption. now apply IH.
Qed.

Lemma parseInt_blank (s : string) : blank s = true -> parseInt s 10 = NaN.
Proof.
  induction s as [|c s IH]; intros Hb; [reflexivity|].
  cbn [blank] in Hb. apply andb_true_iff in Hb as [Hc Hs].
  rewrite parseInt_skips_space by assumption. now apply IH.
Qed.

(** Reading stops at what is no decimal digit. *)
Lemma no_digit_stops (rest : string) :
  no_digit_ahead rest = true -> radix_digits 10 rest = [].
Proof.
  destruct rest as [|c r]; [reflexivity|]. cbn [no_digit_ahead radix_digits].
  unfold is_decimal_digit, digit_value. intros Hc.
  destruct ((48 <=? code c)%N && (code c <=? 57)%N); [discriminate|].
  destruct ((97 <=? code c)%N && (code c <=? 122)%N) eqn:Hlow.
  { apply andb_true_iff in Hlow as [H1 H2]. apply N.leb_le in H1, H2.
    destruct (Z.ltb_spec (Z.of_N (code c) - 87) 10); [lia | reflexivity]. }
  destruct ((65 <=? code c)%N && (code c <=? 90)%N) eqn:Hup; [|reflexivity].
  apply andb_true_iff in Hup as [H1 H2]. apply N.leb_le in H1, H2.
  destruct (Z.ltb_spec (Z.of_N (code c) - 55) 10); [lia | reflexivity].
Qed.

Lemma digits_then_rest (u : Decimal.uint) (rest : string) :
  no_digit_ahead rest = true ->
  radix_digits 10 (NilEmpty.string_of_uint u +:+ rest)
  = radix_digits 10 (NilEmpty.string_of_uint u).
Proof.
  intros Hrest. induction u; cbn [NilEmpty.string_of_uint];
    [ rewrite append_empty; now apply no_digit_stops | .. ];
    rewrite append_cons;
    match goal with
    | |- radix_digits 10 (String ?c ?s) = radix_digits 10 (String ?c ?s') =>
        let d := eval vm_compute in (digit_value c) in
        match d with
        | Some ?v => rewrite (radix_digits_cons c v s), (radix_digits_cons c v s')
                       by reflexivity
        end
    end; now rewrite IHu.
Qed.

Lemma parseInt_unsigned_then (u : Decimal.uint) (rest : string) :
  u <> Decimal.Nil ->
  parseInt (NilEmpty.string_of_uint u +:+ rest) 10
  = match radix_digits 10 (NilEmpty.string_of_uint u +:+ rest) with
    | [] => NaN
    | ds => Num (math_int 10 ds)
    end.
Proof.
  intros Hu. destruct u; [congruence | ..]; cbn [NilEmpty.string_of_uint];
    rewrite append_cons;
    unfold parseInt; rewrite TrimStart_keeps by reflexivity;
    change (ToInt32 10) with 10; cbn -[radix_digits math_int Z.mul String.append];
    match goal with
    | |- context [radix_digits 10 ?s] => destruct (radix_digits 10 s) as [|d ds]
    end; try reflexivity; f_equal; lia.
Qed.

Lemma parseInt_negated_then (u : Decimal.uint) (rest : string) :
  parseInt (String "-" (NilEmpty.string_of_uint u) +:+ rest) 10
  = match radix_digits 10 (NilEmpty.string_of_uint u +:+ rest) with
    | [] => NaN
    | ds => Num (- math_int 10 ds)
    end.
Proof.
  rewrite append_cons.
  unfold parseInt; rewrite TrimStart_keeps by reflexivity;
    change (ToInt32 10) with 10; cbn -[radix_digits math_int Z.mul String.append].
  destruct (radix_digits 10 _) as [|d ds]; try reflexivity; f_equal; lia.
Qed.

(** A numeral is read, with the value of its digits, whatever follows
    it, if that is no digit. *)
Lemma parseInt_numeral_then (z : Z) (rest : string) :
  no_digit_ahead rest = true ->
  parseInt (Number_toString (Num z) +:+ rest) 10 = Num z.
Proof.
  intros Hrest. unfold Number_toString.
  destruct z as [|p|p].
  - change (NilZero.string_of_int (Z.to_int 0))
      with (NilEmpty.string_of_uint (Decimal.D0 Decimal.Nil)).
    rewrite parseInt_unsigned_then by discriminate.
    now rewrite digits_then_rest.
  - pose proof (Unsigned.to_uint_nonnil p) as Hne.
    pose proof (read_pos p) as Hread.
    cbn [Z.to_int NilZero.string_of_int].
    replace (NilZero.string_of_uint (Pos.to_uint p))
      with (NilEmpty.string_of_uint (Pos.to_uint p))
      by (unfold NilZero.string_of_uint; destruct (Pos.to_uint p); congruence).
    rewrite parseInt_unsigned_then by assumption.
    now rewrite digits_then_rest.
  - pose proof (Unsigned.to_uint_nonnil p) as Hne.
    pose proof (read_pos p) as Hread.
    cbn [Z.to_int NilZero.string_of_int].
    replace (NilZero.string_of_uint (Pos.to_uint p))
      with (NilEmpty.string_of_uint (Pos.to_uint p))
      by (unfold NilZero.string_of_uint; destruct (Pos.to_uint p); congruence).
    rewrite parseInt_negated_then, digits_then_rest by assumption.
    destruct (radix_digits 10 _); [discriminate|].
    injection Hread as ->. reflexivity.
Qed.

End Reading.

Section Accepted.

Variable env : gmap string string.

(** X16. The decimal numeral of an integer up to [2^53] in magnitude is
    read from a value that has white space before it and any text that
    does not start with a digit after it: a unit, a fraction, an
    exponent. *)
Theorem numeral_read_among_blanks_and_text (pre rest : string) (z : Z) :
  - 2 ^ 53 <= z <= 2 ^ 53 ->
  blank pre = true ->
  no_digit_ahead rest = true ->
  BOT_PRICE_CENTS
    (Config.load (<["KALSHI_BOT_PRICE_CENTS" := pre +:+ Number_toString (Num z) +:+ rest]> env))
  = Num z
  /\ BOT_CONTRACTS
       (Config.load (<["KALSHI_BOT_CONTRACTS" := pre +:+ Number_toString (Num z) +:+ rest]> env))
     = Num z
  /\ BOT_MAX_MARKETS
       (Config.load (<["KALSHI_BOT_MAX_MARKETS" := pre +:+ Number_toString (Num z) +:+ rest]> env))
     = Num z.
Proof.
  intros Hsafe Hpre Hrest.
  unfold Config.load; cbn [BOT_PRICE_CENTS BOT_CONTRACTS BOT_MAX_MARKETS].
  rewrite !lookup_insert_eq. cbn [default id].
  rewrite parseInt_skips_blank, parseInt_numeral_then by assumption.
  repeat split.
Qed.

(** X17. A variable that is set to the empty string, or to white space
    only, does not get its default: the three numbers are [NaN]. *)
Theorem blank_value_is_NaN_not_default (s : string) :
  blank s = true ->
  BOT_PRICE_CENTS (Config.load (<["KALSHI_BOT_PRICE_CENTS" := s]> env)) = NaN
  /\ BOT_CONTRACTS (Config.load (<["KALSHI_BOT_CONTRACTS" := s]> env)) = NaN
  /\ BOT_MAX_MARKETS (Config.load (<["KALSHI_BOT_MAX_MARKETS" := s]> env)) = NaN.
Proof.
  intros Hs. unfold Config.load; cbn [BOT_PRICE_CENTS BOT_CONTRACTS BOT_MAX_MARKETS].
  rewrite !lookup_insert_eq. cbn [default id].
  rewrite parseInt_blank by assumption. repeat split.
Qed.

(** The dry-run flag is true for the value ["true"] and for no
    other: not when the variable is unset, and not for ["TRUE"], ["1"] or
    ["yes"]. *)
Theorem dry_run_only_for_true :
  BOT_DRY_RUN (Config.load env) = true <-> env !! "KALSHI_BOT_DRY_RUN" = Some "true".
Proof.
  unfold Config.load; cbn [BOT_DRY_RUN]. unfold strict_eq.
  destruct (env !! "KALSHI_BOT_DRY_RUN") as [v|]; [|split; discriminate].
  rewrite String.eqb_eq. split; congruence.
Qed.

End Accepted.

Lemma numeral_read_among_blanks_and_text_12_7 :
  "  " +:+ Number_toString (Num 12) +:+ ".7" = "  12.7"
  /\ - 2 ^ 53 <= 12 <= 2 ^ 53
  /\ blank "  " = true
  /\ no_digit_ahead ".7" = true
  /\ BOT_PRICE_CENTS
       (Config.load (<["KALSHI_BOT_PRICE_CENTS" := "  " +:+ Number_toString (Num 12) +:+ ".7"]> ∅))
     = Num 12.
Proof.
  split; [reflexivity|]. split; [lia|]. split; [reflexivity|]. split; [reflexivity|].
  refine (proj1 (numeral_read_among_blanks_and_text ∅ "  " ".7" 12 _ eq_refl eq_refl)).
  lia.
Defined.

Lemma blank_value_is_NaN_not_default_empty :
  blank "" = true
  /\ BOT_PRICE_CENTS (Config.load (<["KALSHI_BOT_PRICE_CENTS" := ""]> ∅)) = NaN
  /\ BOT_CONTRACTS (Config.load (<["KALSHI_BOT_CONTRACTS" := ""]> ∅)) = NaN
  /\ BOT_MAX_MARKETS (Config.load (<["KALSHI_BOT_MAX_MARKETS" := ""]> ∅)) = NaN.
Proof.
  split; [reflexivity|].
  apply (blank_value_is_NaN_not_default ∅ ""). reflexivity.
Defined.

Example dry_run_spellings :
  BOT_DRY_RUN (Config.load {[ "KALSHI_BOT_DRY_RUN" := "TRUE" ]}) = false
  /\ BOT_DRY_RUN (Config.load {[ "KALSHI_BOT_DRY_RUN" := "1" ]}) = false
  /\ BOT_DRY_RUN (Config.load {[ "KALSHI_BOT_DRY_RUN" := " true" ]}) = false.
Proof. repeat split. Qed.

Example price_with_unit_or_fraction :
  BOT_PRICE_CENTS (Config.load {[ "KALSHI_BOT_PRICE_CENTS" := "45c" ]}) = Num 45
  /\ BOT_PRICE_CENTS (Config.load {[ "KALSHI_BOT_PRICE_CENTS" := "0.45" ]}) = Num 0
  /\ BOT_PRICE_CENTS (Config.load {[ "KALSHI_BOT_PRICE_CENTS" := "1e2" ]}) = Num 1
  /\ BOT_PRICE_CENTS (Config.load {[ "KALSHI_BOT_PRICE_CENTS" := "0x32" ]}) = Num 0.
Proof. repeat split. Qed.

(** ** From the environment to the order calls *)

Section EndToEnd.

Variable env : gmap string string.
Variable w : World.

(** The buy call of a run in which a market is found. *)
Lemma buy_call_of_run (cfg : Config.t) (m : Market) (ms : list Market) :
  getBitcoinUpDownMarkets w = Fulfilled (m :: ms) ->
  buy_calls (events (quickTrade cfg w))
  = [PlaceOrder (ticker m) (BOT_SIDE cfg)
       (Math_max (Num 1) (BOT_CONTRACTS cfg))
       (Math_max (Num 1) (Math_min (Num 99) (BOT_PRICE_CENTS cfg)))
       {| arbLive := true |}].
Proof. intros Hfetch. run_cases cfg w; try discriminate; now simplify_eq. Qed.

(** The sell call of a run in which the buy is placed. *)
Lemma sell_call_of_run (cfg : Config.t) (m : Market) (ms : list Market) (id : string) :
  getBitcoinUpDownMarkets w = Fulfilled (m :: ms) ->
  buy_reply (events (quickTrade cfg w)) = Some (Order (Placed id)) ->
  sell_calls (events (quickTrade cfg w))
  = [PlaceSellOrder (ticker m) (BOT_SIDE cfg)
       (Math_max (Num 1) (BOT_CONTRACTS cfg)) {| arbLive := true |}].
Proof. intros Hfetch Hbuy. run_cases cfg w; try discriminate; now simplify_eq. Qed.

(** X19. With the price variable of [env] set to the numeral of [z] and
    the count variable to the numeral of [n], integers up to [2^53] in
    magnitude, and a market found, the buy call is for the first market,
    the side of [env] (["yes"] when [env] has none), [max 1 n] contracts
    and the price [max 1 (min 99 z)]; and once the buy is placed, the
    sell call is for the same market, side and count. *)
Theorem environment_to_order_calls (z n : Z) (m : Market) (ms : list Market) :
  - 2 ^ 53 <= z <= 2 ^ 53 ->
  - 2 ^ 53 <= n <= 2 ^ 53 ->
  getBitcoinUpDownMarkets w = Fulfilled (m :: ms) ->
  let cfg := Config.load (<["KALSHI_BOT_PRICE_CENTS" := Number_toString (Num z)]>
                          (<["KALSHI_BOT_CONTRACTS" := Number_toString (Num n)]> env)) in
  buy_calls (events (quickTrade cfg w))
  = [PlaceOrder (ticker m) ((env !! "KALSHI_BOT_SIDE") ?? "yes")
       (Num (Z.max 1 n)) (Num (Z.max 1 (Z.min 99 z))) {| arbLive := true |}]
  /\ (forall id, buy_reply (events (quickTrade cfg w)) = Some (Order (Placed id)) ->
      sell_calls (events (quickTrade cfg w))
      = [PlaceSellOrder (ticker m) ((env !! "KALSHI_BOT_SIDE") ?? "yes")
           (Num (Z.max 1 n)) {| arbLive := true |}]).
Proof.
  intros Hz Hn Hfetch cfg.
  assert (Hside : BOT_SIDE cfg = (env !! "KALSHI_BOT_SIDE") ?? "yes").
  { unfold cfg, Config.load; cbn [BOT_SIDE]. now rewrite !lookup_insert_ne by done. }
  assert (Hcount : BOT_CONTRACTS cfg = Num n).
  { unfold cfg, Config.load; cbn [BOT_CONTRACTS].
    rewrite lookup_insert_ne by done. rewrite lookup_insert_eq.
    cbn [default id]. apply parseInt_numeral. }
  assert (Hprice : BOT_PRICE_CENTS cfg = Num z).
  { unfold cfg, Config.load; cbn [BOT_PRICE_CENTS].
    rewrite lookup_insert_eq. cbn [default id]. apply parseInt_numeral. }
  split.
  - rewrite (buy_call_of_run cfg m ms Hfetch), Hside, Hcount, Hprice. reflexivity.
  - intros id Hbuy.
    rewrite (sell_call_of_run cfg m ms id Hfetch Hbuy), Hside, Hcount. reflexivity.
Qed.

End EndToEnd.

Lemma environment_to_order_calls_150_0 :
  - 2 ^ 53 <= 150 <= 2 ^ 53
  /\ - 2 ^ 53 <= 0 <= 2 ^ 53
  /\ getBitcoinUpDownMarkets Sample.calm = Fulfilled [ {| ticker := "ABC" |} ]
  /\ buy_calls (events (quickTrade
        (Config.load (<["KALSHI_BOT_PRICE_CENTS" := Number_toString (Num 150)]>
                      (<["KALSHI_BOT_CONTRACTS" := Number_toString (Num 0)]> ∅)))
        Sample.calm))
     = [PlaceOrder "ABC" ((∅ : gmap string string) !! "KALSHI_BOT_SIDE" ?? "yes")
          (Num (Z.max 1 0)) (Num (Z.max 1 (Z.min 99 150))) {| arbLive := true |}].
Proof.
  split; [lia|]. split; [lia|]. split; [reflexivity|].
  refine (proj1 (environment_to_order_calls ∅ Sample.calm 150 0
                   {| ticker := "ABC" |} [] _ _ eq_refl)); lia.
Defined.
